(** * Document-processing pipeline of [app/services/unified_document_processor.py]

    A shallow embedding of [DocumentProcessor]: the text-extraction cascade,
    the date plausibility check, the confidence rubric, the AI validation
    engine and the escalation logic of [process_document].

    Conventions of the embedding.
    - Python [float] is IEEE binary64, here the primitive [float]; the literals
      [0.4], [0.7], ... denote the nearest binary64 value in both languages.
    - Python [str] is modelled by [string] restricted to ASCII text: case
      mapping, whitespace and digit classes are the ASCII ones.
    - Values decoded from JSON are [json]; numbers are taken at their binary64
      value (an integer literal of magnitude below 2^53 is exact).
    - A Python [dict] is an association list with unique keys, in insertion
      order.
    - Code that can raise returns [exc]; the external collaborators (the PDF
      libraries, the OCR engine, the regular-expression engine, the language
      model, [json.loads]) are the fields of [World], and the readings of the
      wall clock those of [Clock]. *)

From Stdlib Require Import Floats ZArith String Ascii List Bool Lia.
From Stdlib Require Import DecimalString.
Import ListNotations.
Set Warnings "-inexact-float,-register-all".

Local Open Scope string_scope.
Local Open Scope list_scope.

(** ** Python strings *)

Module PyStr.

(** [str.isspace] on ASCII: TAB..CR, FS..US and the space. *)
Definition is_space (c : ascii) : bool :=
  let n := nat_of_ascii c in
  ((9 <=? n)%nat && (n <=? 13)%nat) || ((28 <=? n)%nat && (n <=? 32)%nat).

(** The class [\d] on ASCII. *)
Definition is_digit (c : ascii) : bool :=
  let n := nat_of_ascii c in (48 <=? n)%nat && (n <=? 57)%nat.

Definition lower_char (c : ascii) : ascii :=
  let n := nat_of_ascii c in
  if (65 <=? n)%nat && (n <=? 90)%nat then ascii_of_nat (n + 32) else c.

(** [s.lower()] *)
Fixpoint lower (s : string) : string :=
  match s with
  | EmptyString => EmptyString
  | String c r => String (lower_char c) (lower r)
  end.

Fixpoint lstrip_class (space : ascii -> bool) (s : string) : string :=
  match s with
  | EmptyString => EmptyString
  | String c r => if space c then lstrip_class space r else s
  end.

(** Drops the trailing characters of the class: a character is kept iff it is
    not in the class or something that is kept follows. *)
Fixpoint rstrip_class (space : ascii -> bool) (s : string) : string :=
  match s with
  | EmptyString => EmptyString
  | String c r =>
      match rstrip_class space r with
      | EmptyString => if space c then EmptyString else String c EmptyString
      | r' => String c r'
      end
  end.

(** [s.strip()] *)
Definition strip (s : string) : string :=
  rstrip_class is_space (lstrip_class is_space s).

(** Truth value of a string: [bool(s)]. *)
Definition nonempty (s : string) : bool :=
  match s with EmptyString => false | _ => true end.

(** [needle in hay] *)
Fixpoint contains (needle hay : string) : bool :=
  if prefix needle hay then true
  else match hay with
       | EmptyString => false
       | String _ r => contains needle r
       end.

Fixpoint has_digit (s : string) : bool :=
  match s with
  | EmptyString => false
  | String c r => is_digit c || has_digit r
  end.

(** [s.split(sep)] for a one-character separator: never the empty list. *)
Fixpoint split (sep : ascii) (s : string) : list string :=
  match s with
  | EmptyString => [EmptyString]
  | String c r =>
      if Ascii.eqb c sep then EmptyString :: split sep r
      else match split sep r with
           | [] => [String c EmptyString]
           | h :: t => String c h :: t
           end
  end.

(** [s[:n]] *)
Definition take (n : nat) (s : string) : string := substring 0 n s.

(** [re.sub(r'\s+', ' ', s)]: every maximal run of whitespace becomes one
    space.  [in_run] tells whether the previous character was whitespace. *)
Fixpoint collapse_ws_from (in_run : bool) (s : string) : string :=
  match s with
  | EmptyString => EmptyString
  | String c r =>
      if is_space c
      then if in_run then collapse_ws_from true r
           else String " " (collapse_ws_from true r)
      else String c (collapse_ws_from false r)
  end.

Definition collapse_ws (s : string) : string := collapse_ws_from false s.

(** [str(n)] for a natural number. *)
Definition of_nat (n : nat) : string := NilEmpty.string_of_uint (Nat.to_uint n).

End PyStr.

(** ** Values decoded from JSON, and dictionaries *)

Inductive json : Type :=
| JNull
| JBool (b : bool)
| JNum (f : float)
| JStr (s : string)
| JArr (items : list json)
| JObj (fields : list (string * json)).

Definition dict := list (string * json).

Fixpoint dict_lookup (k : string) (d : dict) : option json :=
  match d with
  | [] => None
  | (k', v) :: r => if String.eqb k k' then Some v else dict_lookup k r
  end.

(** [d.get(k, default)] *)
Definition dict_get_default (d : dict) (k : string) (default : json) : json :=
  match dict_lookup k d with Some v => v | None => default end.

(** [d.get(k)] *)
Definition dict_get (d : dict) (k : string) : json := dict_get_default d k JNull.

(** [d[k] = v]: replaces in place, or appends a new key. *)
Fixpoint dict_set (d : dict) (k : string) (v : json) : dict :=
  match d with
  | [] => [(k, v)]
  | (k', v') :: r =>
      if String.eqb k k' then (k', v) :: r else (k', v') :: dict_set r k v
  end.

(** [bool(v)] *)
Definition truthy (v : json) : bool :=
  match v with
  | JNull => false
  | JBool b => b
  | JNum f => negb (PrimFloat.eqb f 0%float)
  | JStr s => PyStr.nonempty s
  | JArr l => match l with [] => false | _ => true end
  | JObj l => match l with [] => false | _ => true end
  end.

Definition float_of_bool (b : bool) : float := if b then 1%float else 0%float.

(** [a == b] on decoded values: booleans compare as the numbers 0 and 1,
    lists pointwise, dictionaries regardless of key order. *)
Fixpoint py_eq (a b : json) {struct a} : bool :=
  match a, b with
  | JNull, JNull => true
  | JBool x, JBool y => Bool.eqb x y
  | JBool x, JNum g => PrimFloat.eqb (float_of_bool x) g
  | JNum f, JBool y => PrimFloat.eqb f (float_of_bool y)
  | JNum f, JNum g => PrimFloat.eqb f g
  | JStr s, JStr t => String.eqb s t
  | JArr l, JArr m =>
      (fix pointwise (l m : list json) {struct l} : bool :=
         match l, m with
         | [], [] => true
         | x :: l', y :: m' => py_eq x y && pointwise l' m'
         | _, _ => false
         end) l m
  | JObj l, JObj m =>
      Nat.eqb (List.length l) (List.length m) &&
      (fix every (l : list (string * json)) : bool :=
         match l with
         | [] => true
         | (k, v) :: l' =>
             match dict_lookup k m with
             | Some w => py_eq v w
             | None => false
             end && every l'
         end) l
  | _, _ => false
  end.

(** ** Exceptions *)

Inductive exn : Type :=
| AttributeError
| TypeError
| ValueError (msg : string)
| ExternalError (msg : string).

Inductive exc (A : Type) : Type :=
| Ok (a : A)
| Raise (e : exn).
Arguments Ok {A} a.
Arguments Raise {A} e.

Definition exc_bind {A B} (m : exc A) (k : A -> exc B) : exc B :=
  match m with Ok a => k a | Raise e => Raise e end.

Notation "'do' x <- m ; k" := (exc_bind m (fun x => k))
  (at level 10, x name, m at level 100, k at level 200).

(** ** ConfidenceScorer: [_calculate_confidence] *)

(** [min(a, b)] and [max(a, b)]: the first argument unless the second is
    strictly smaller (respectively larger). *)
Definition py_min (a b : float) : float := if PrimFloat.ltb b a then b else a.
Definition py_max (a b : float) : float := if PrimFloat.ltb a b then b else a.

(** [re.search(r'\d|person|number|id', s)] *)
Definition artifact_search (s : string) : bool :=
  PyStr.has_digit s || PyStr.contains "person" s
  || PyStr.contains "number" s || PyStr.contains "id" s.

(** [value.lower()], an [AttributeError] on anything but a string. *)
Definition py_lower (v : json) : exc string :=
  match v with
  | JStr s => Ok (PyStr.lower s)
  | _ => Raise AttributeError
  end.

Definition _calculate_confidence (patient_info : dict) : exc float :=
  match patient_info with
  | [] => Ok 0.0%float
  | _ =>
      let score := 0.0%float in
      let score :=
        if truthy (dict_get patient_info "first_name")
        then (score + 0.4)%float else score in
      do score <-
        (if truthy (dict_get patient_info "last_name")
         then
           let score := (score + 0.4)%float in
           do lowered <- py_lower (dict_get patient_info "last_name");
           Ok (if negb (artifact_search lowered)
               then (score + 0.1)%float else score)
         else Ok score);
      let score :=
        if truthy (dict_get patient_info "date_of_birth")
        then (score + 0.2)%float else score in
      Ok (py_min score 1.0%float)
  end.

(** *** PatientInfo as the specification has it *)

Record PatientInfo : Type := {
  first_name : option string;
  last_name : option string;
  date_of_birth : option string
}.

Definition json_of_field (o : option string) : json :=
  match o with Some s => JStr s | None => JNull end.

(** The three-key dictionary every producer in the source builds. *)
Definition dict_of_info (p : PatientInfo) : dict :=
  [("first_name", json_of_field (first_name p));
   ("last_name", json_of_field (last_name p));
   ("date_of_birth", json_of_field (date_of_birth p))].

(** A field is present when it is neither null nor the empty string. *)
Definition present (o : option string) : bool :=
  match o with Some s => PyStr.nonempty s | None => false end.

(** The last name is clean: no digit and none of the three artifact words,
    whatever the letter case. *)
Definition clean_last_name (o : option string) : bool :=
  match o with
  | Some s =>
      let l := PyStr.lower s in
      negb (PyStr.has_digit l) && negb (PyStr.contains "person" l)
      && negb (PyStr.contains "number" l) && negb (PyStr.contains "id" l)
  | None => false
  end.

Definition points (b : bool) (v : float) : float := if b then v else 0.0%float.

(** The additive rubric in the words of the specification. *)
Definition rubric (p : PatientInfo) : float :=
  py_min
    (points (present (first_name p)) 0.4
     + points (present (last_name p)) 0.4
     + points (present (last_name p) && clean_last_name (last_name p)) 0.1
     + points (present (date_of_birth p)) 0.2)%float
    1.0%float.

(** ** FieldExtractor: date of birth *)

Definition digit_value (c : ascii) : Z := Z.of_nat (nat_of_ascii c - 48).

(** The digits of a Python integer literal given to [int]: decimal digits,
    single underscores allowed between two digits.  [after_digit] tells
    whether the previous character was a digit. *)
Fixpoint int_digits (acc : Z) (after_digit : bool) (s : string) : option Z :=
  match s with
  | EmptyString => if after_digit then Some acc else None
  | String c r =>
      if PyStr.is_digit c then int_digits (10 * acc + digit_value c) true r
      else if Ascii.eqb c "_" then
             if after_digit then int_digits acc false r else None
      else None
  end.

(** The whitespace [int] skips around an ASCII literal: TAB..CR and the
    space, without the separators FS..US that [str.strip] also removes. *)
Definition is_int_space (c : ascii) : bool :=
  let n := nat_of_ascii c in
  ((9 <=? n)%nat && (n <=? 13)%nat) || (n =? 32)%nat.

Fixpoint count_digits (s : string) : nat :=
  match s with
  | EmptyString => 0
  | String c r => if PyStr.is_digit c then S (count_digits r) else count_digits r
  end.

(** [sys.int_info.default_max_str_digits], the conversion limit of CPython
    3.11 and later. *)
Definition int_max_str_digits : nat := 4300.

(** [int(s)]: surrounding whitespace, an optional sign, then the digits;
    [ValueError] otherwise, and also when there are more digits than the
    conversion limit allows. *)
Definition py_int (s : string) : exc Z :=
  let literal :=
    PyStr.rstrip_class is_int_space (PyStr.lstrip_class is_int_space s) in
  let digits :=
    match literal with
    | String "+" r => int_digits 0 false r
    | String "-" r => option_map Z.opp (int_digits 0 false r)
    | t => int_digits 0 false t
    end in
  match digits with
  | Some z =>
      if (int_max_str_digits <? count_digits literal)%nat
      then Raise (ValueError "Exceeds the limit (4300 digits) for integer string conversion")
      else Ok z
  | None => Raise (ValueError "invalid literal for int() with base 10")
  end.

Definition in_range (lo x hi : Z) : bool := (lo <=? x)%Z && (x <=? hi)%Z.

(** The body of the [try] block of [_is_valid_date_format]. *)
Definition date_format_check (date_str : string) : exc bool :=
  match PyStr.split "/" date_str with
  | [p0; p1; p2] =>
      do n0 <- py_int p0;
      do n1 <- py_int p1;
      do n2 <- py_int p2;
      if (String.length p2 =? 4)%nat
         && (in_range 1 n0 12 && in_range 1 n1 31 && in_range 1900 n2 2030)
      then Ok true
      else if (String.length p0 =? 4)%nat
              && (in_range 1900 n0 2030 && in_range 1 n1 12 && in_range 1 n2 31)
      then Ok true
      else Ok false
  | _ => Ok false
  end.

Definition _is_valid_date_format (date_str : string) : bool :=
  match date_format_check date_str with
  | Ok b => b
  | Raise _ => false
  end.

(** [re.sub(r'[/-]', '/', s)] *)
Fixpoint normalize_separators (s : string) : string :=
  match s with
  | EmptyString => EmptyString
  | String c r =>
      String (if Ascii.eqb c "-" then "/"%char else c) (normalize_separators r)
  end.

Definition dob_patterns : list string :=
  ["(?:DOB|Date\s+of\s+Birth|Birth\s+Date):\s*(\d{1,2}[/-]\d{1,2}[/-]\d{4})";
   "(?:DOB|Date\s+of\s+Birth|Birth\s+Date):\s*(\d{4}[/-]\d{1,2}[/-]\d{1,2})";
   "(\d{1,2}[/-]\d{1,2}[/-]\d{4})";
   "(\d{4}[/-]\d{1,2}[/-]\d{1,2})";
   "(?:born|birth).*?(\d{1,2}[/-]\d{1,2}[/-]\d{4})"].

(** The loop of [_extract_date_of_birth]; [findall pattern text] stands for
    [re.findall(pattern, text, re.IGNORECASE)]. *)
Fixpoint dob_scan (findall : string -> string -> list string)
    (text : string) (patterns : list string) : option string :=
  match patterns with
  | [] => None
  | pattern :: rest =>
      match findall pattern text with
      | [] => dob_scan findall text rest
      | m :: _ =>
          let date_str := normalize_separators (PyStr.strip m) in
          if _is_valid_date_format date_str then Some date_str
          else dob_scan findall text rest
      end
  end.

(** *** The plausibility check in the words of the specification *)

Definition is_integer_field (s : string) (value : Z) : Prop := py_int s = Ok value.

Definition month_ok (m : Z) : Prop := (1 <= m <= 12)%Z.
Definition day_ok (d : Z) : Prop := (1 <= d <= 31)%Z.
Definition year_ok (y : Z) : Prop := (1900 <= y <= 2030)%Z.

Definition plausible_date (date_str : string) : Prop :=
  exists f0 f1 f2 n0 n1 n2,
    PyStr.split "/" date_str = [f0; f1; f2]
    /\ is_integer_field f0 n0 /\ is_integer_field f1 n1 /\ is_integer_field f2 n2
    /\ ((String.length f2 = 4 /\ month_ok n0 /\ day_ok n1 /\ year_ok n2)
        \/ (String.length f0 = 4 /\ year_ok n0 /\ month_ok n1 /\ day_ok n2)).

(** ** TextExtractionCascade *)

Definition bytes := list Byte.byte.

Definition nl : string := String (ascii_of_nat 10) EmptyString.

(** What a PDF library does page after page: [page.extract_text()] returns a
    string or [None], or the library raises (opening the file included). *)
Inductive page_event : Type :=
| PageText (page_text : option string)
| PageFails (msg : string).

(** What rendering a page and running the OCR engine on it does. *)
Inductive ocr_event : Type :=
| Recognized (page_text : string)
| OcrFails (msg : string).

(** A request to the language model, by the prompt template and the values
    formatted into it. *)
Inductive request : Type :=
| TextAnalysisPrompt (document_text : string)
| VisionAnalysisPrompt (image_base64 : string)
| ValidationPrompt (document_text : string) (first last dob : json).

Inductive reply : Type :=
| Content (response_content : string)
| InvokeFails (msg : string).

(** What [json.loads] does with a text: it returns the decoded value, or it
    raises a [json.JSONDecodeError], or it raises another exception, such as
    the [RecursionError] of a text nested too deeply. *)
Inductive decoding : Type :=
| Decoded (v : json)
| JSONDecodeError
| DecodingRaises (msg : string).

(** The collaborators of one processor, as functions of what the code hands
    them.
    - [pdfplumber_pages], [pypdf2_pages]: what each library does on the bytes,
      page after page.
    - [ocr_page_runs]: rendering, preprocessing and recognition of each page.
    - [pdf_to_base64_image]: [_pdf_to_base64_image], the first page as a JPEG.
    - [re_findall pattern text]: [re.findall] for a pattern with one group.
    - [extract_patient_name_ocr]: the name patterns of
      [_extract_patient_name_ocr], built on [re.findall], [str.split] and
      [str.title] only, hence a total function of the text into two optional
      strings; nothing below depends on which one.
    - [llm_ainvoke]: [self.llm.ainvoke] on the formatted prompt.
    - [json_loads]: what [json.loads] does with a text. *)
Record World : Type := {
  pdfplumber_pages : bytes -> list page_event;
  pypdf2_pages : bytes -> list page_event;
  ocr_page_runs : bytes -> list ocr_event;
  pdf_to_base64_image : bytes -> exc string;
  re_findall : string -> string -> list string;
  extract_patient_name_ocr : string -> option string * option string;
  llm_ainvoke : request -> reply;
  json_loads : string -> decoding
}.

(** The page loop shared by the first two methods: [text += page_text + "\n"]
    for every truthy page text, until a page raises.  Returns the text
    accumulated so far and whether the loop ended by an exception. *)
Fixpoint read_pages (text : string) (pages : list page_event) : string * bool :=
  match pages with
  | [] => (text, false)
  | PageText (Some page_text) :: rest =>
      read_pages (if PyStr.nonempty page_text then text ++ page_text ++ nl else text)
                 rest
  | PageText None :: rest => read_pages text rest
  | PageFails _ :: _ => (text, true)
  end.

(** What [_extract_text_with_ocr] ends with: its text, or the exception of
    the page that failed, by its message [str(e)]. *)
Inductive ocr_outcome : Type :=
| OcrDone (text : string)
| OcrRaised (msg : string).

(** The page loop of [_extract_text_with_ocr]. *)
Fixpoint ocr_loop (page_num : nat) (text : string) (pages : list ocr_event)
  : ocr_outcome :=
  match pages with
  | [] => OcrDone text
  | Recognized page_text :: rest =>
      ocr_loop (S page_num)
        (if PyStr.nonempty (PyStr.strip page_text)
         then text ++ "Page " ++ PyStr.of_nat (page_num + 1) ++ ":" ++ nl
                   ++ page_text ++ nl ++ nl
         else text)
        rest
  | OcrFails msg :: _ => OcrRaised msg
  end.

Definition _extract_text_with_ocr (w : World) (file_content : bytes) : ocr_outcome :=
  ocr_loop 0 "" (ocr_page_runs w file_content).

Definition tesseract_hint : string :=
  "Could not extract text from PDF. This appears to be an image-based PDF that requires OCR. Please install Tesseract OCR: 'sudo apt install tesseract-ocr' on Ubuntu/Debian or 'brew install tesseract' on macOS.".

Definition extraction_failed : string := "Could not extract text from PDF".

Definition _extract_text_from_pdf (w : World) (file_content : bytes)
  : exc (string * string) :=
  let text := "" in
  let method := "none" in
  (* Method 1: pdfplumber *)
  let '(text, failed) := read_pages text (pdfplumber_pages w file_content) in
  if negb failed && PyStr.nonempty (PyStr.strip text) then Ok (text, "pdfplumber")
  else
  (* Method 2: PyPDF2 *)
  let '(text, failed) := read_pages text (pypdf2_pages w file_content) in
  if negb failed && PyStr.nonempty (PyStr.strip text) then Ok (text, "pypdf2")
  else
  (* Method 3: OCR *)
  match _extract_text_with_ocr w file_content with
  | OcrDone text =>
      if PyStr.nonempty (PyStr.strip text) then Ok (text, "tesseract")
      else if negb (PyStr.nonempty (PyStr.strip text))
           then Raise (ValueError extraction_failed)
           else Ok (text, method)
  | OcrRaised msg =>
      if PyStr.contains "tesseract" (PyStr.lower msg)
      then Raise (ValueError tesseract_hint)
      else if negb (PyStr.nonempty (PyStr.strip text))
           then Raise (ValueError extraction_failed)
           else Ok (text, method)
  end.

Definition _extract_date_of_birth (w : World) (text : string) : option string :=
  dob_scan (re_findall w) (PyStr.collapse_ws text) dob_patterns.

(** ** ValidationAndCorrectionEngine *)

(** [re.search(r'\{.*\}', s, re.DOTALL)]: from the first opening brace to the
    last closing brace after it. *)
Fixpoint from_first (c : ascii) (s : string) : option string :=
  match s with
  | EmptyString => None
  | String a r => if Ascii.eqb a c then Some s else from_first c r
  end.

Fixpoint upto_last (c : ascii) (s : string) : option string :=
  match s with
  | EmptyString => None
  | String a r =>
      match upto_last c r with
      | Some p => Some (String a p)
      | None => if Ascii.eqb a c then Some (String a EmptyString) else None
      end
  end.

Definition json_match (response_content : string) : option string :=
  match from_first "{" response_content with
  | Some s => upto_last "}" s
  | None => None
  end.

(** The text handed to [json.loads]. *)
Definition json_str_of (response_content : string) : string :=
  match json_match response_content with
  | Some m => m
  | None => response_content
  end.

(** [v.get(k, default)] on a decoded value: an [AttributeError] unless [v] is
    a dictionary. *)
Definition json_get (v : json) (k : string) (default : json) : exc json :=
  match v with
  | JObj d => Ok (dict_get_default d k default)
  | _ => Raise AttributeError
  end.

Record CorrectionApplied : Type := {
  field : string;
  original : json;
  corrected : json;
  reason : json
}.

Record ValidationSummary : Type := {
  validation_performed : bool;
  validation_results : json;
  overall_validation : json;
  corrections_applied : list CorrectionApplied
}.

Record ValidationOutcome : Type := {
  corrected_patient_info : dict;
  validation_summary : ValidationSummary
}.

Definition parse_error_issue : json :=
  JArr [JStr "Unable to validate due to parsing error"].

Definition fallback_field : json :=
  JObj [("is_valid", JBool true); ("confidence", JNum 0.5%float);
        ("issues", parse_error_issue)].

(** The fallback validation result of the [json.JSONDecodeError] handler. *)
Definition fallback_validation_result : json :=
  JObj
    [("validation_results",
      JObj [("first_name", fallback_field); ("last_name", fallback_field);
            ("date_of_birth", fallback_field)]);
     ("overall_validation",
      JObj [("overall_confidence", JNum 0.5%float);
            ("data_quality_score", JNum 0.5%float);
            ("validation_summary",
             JStr "Validation failed due to response parsing error");
            ("recommendations",
             JArr [JStr "Manual review recommended due to validation error"])])].

Definition validated_fields : list string :=
  ["first_name"; "last_name"; "date_of_birth"].

(** The correction loop over the three fields. *)
Fixpoint apply_corrections (validation_result : json) (patient_info : dict)
    (fields : list string) (corrected_info : dict)
    (applied : list CorrectionApplied) : exc (dict * list CorrectionApplied) :=
  match fields with
  | [] => Ok (corrected_info, applied)
  | f :: rest =>
      do results <- json_get validation_result "validation_results" (JObj []);
      do field_validation <- json_get results f (JObj []);
      do corrected_value <- json_get field_validation "corrected_value" JNull;
      if truthy corrected_value
         && negb (py_eq corrected_value (dict_get patient_info f))
      then
        do issues <- json_get field_validation "issues" (JArr []);
        apply_corrections validation_result patient_info rest
          (dict_set corrected_info f corrected_value)
          (applied ++ [{| field := f;
                          original := dict_get patient_info f;
                          corrected := corrected_value;
                          reason := issues |}])
      else apply_corrections validation_result patient_info rest
             corrected_info applied
  end.

(** What follows the decoding inside the [try] block. *)
Definition summarize (validation_result : json) (patient_info : dict)
  : exc ValidationOutcome :=
  do results <- json_get validation_result "validation_results" (JObj []);
  do overall <- json_get validation_result "overall_validation" (JObj []);
  do out <- apply_corrections validation_result patient_info validated_fields
              patient_info [];
  Ok {| corrected_patient_info := fst out;
        validation_summary :=
          {| validation_performed := true;
             validation_results := results;
             overall_validation := overall;
             corrections_applied := snd out |} |}.

(** The decoding of the reply: the fallback of the [json.JSONDecodeError]
    handler when the text is not JSON, and any other exception of
    [json.loads] left to the handler of the whole function. *)
Definition decode_judgment (w : World) (response_content : string) : exc json :=
  let json_str := json_str_of response_content in
  match json_loads w json_str with
  | Decoded v => Ok v
  | JSONDecodeError => Ok fallback_validation_result
  | DecodingRaises msg => Raise (ExternalError msg)
  end.

Definition validation_request (text : string) (patient_info : dict) : request :=
  ValidationPrompt (PyStr.take 4000 text)
    (dict_get_default patient_info "first_name" (JStr "None"))
    (dict_get_default patient_info "last_name" (JStr "None"))
    (dict_get_default patient_info "date_of_birth" (JStr "None")).

Definition _ai_validate_extracted_data (w : World) (enable_ai : bool)
    (text : string) (patient_info : dict) : option ValidationOutcome :=
  if negb enable_ai || match patient_info with [] => true | _ => false end
  then None
  else
    match llm_ainvoke w (validation_request text patient_info) with
    | InvokeFails _ => None
    | Content content =>
        let response_content := PyStr.strip content in
        match
          do validation_result <- decode_judgment w response_content;
          summarize validation_result patient_info
        with
        | Ok outcome => Some outcome
        | Raise _ => None
        end
    end.

(** ** Reanalysis by the language model *)

(** The common tail of [_ai_text_analysis] and [_ai_vision_analysis]. *)
Definition fields_of_reply (w : World) (r : reply) : option dict :=
  match r with
  | InvokeFails _ => None
  | Content content =>
      let response_content := PyStr.strip content in
      match json_loads w (json_str_of response_content) with
      | Decoded (JObj result) =>
          Some [("first_name", dict_get result "first_name");
                ("last_name", dict_get result "last_name");
                ("date_of_birth", dict_get result "date_of_birth")]
      | Decoded _ => None
      | JSONDecodeError => None
      | DecodingRaises _ => None
      end
  end.

Definition _ai_text_analysis (w : World) (enable_ai : bool) (text : string)
  : option dict :=
  if negb enable_ai then None
  else fields_of_reply w (llm_ainvoke w (TextAnalysisPrompt (PyStr.take 4000 text))).

Definition _ai_vision_analysis (w : World) (enable_ai : bool)
    (file_content : bytes) : option dict :=
  if negb enable_ai then None
  else
    match pdf_to_base64_image w file_content with
    | Raise _ => None
    | Ok image_base64 =>
        fields_of_reply w (llm_ainvoke w (VisionAnalysisPrompt image_base64))
    end.

(** ** EscalationController: [process_document] *)

(** The readings of the wall clock in one run: [elapsed_ms] is
    [int((datetime.now() - start_time).total_seconds() * 1000)] and [utcnow]
    is [datetime.utcnow()], as seconds since the epoch. *)
Record Clock : Type := {
  elapsed_ms : Z;
  utcnow : Z
}.

(** The response dictionary, without its [message] entry. *)
Record ProcessingResult : Type := {
  success : bool;
  patient_info : option dict;
  extracted_text : option string;
  processing_time_ms : Z;
  extraction_method : string;
  confidence_score : float;
  timestamp : Z;
  ai_validation : option ValidationSummary
}.

(** The local variables [final_result], [final_method], [final_confidence]
    and [validation_summary]. *)
Record Candidate : Type := {
  final_result : dict;
  final_method : string;
  final_confidence : float;
  summary : option ValidationSummary
}.

(** One entry per call site of an AI capability in [process_document], in the
    order the calls are made; the reanalysis entries record the quality value
    that opened their gate. *)
Inductive step : Type :=
| Validation
| TextReanalysis (quality : json)
| TextRevalidation
| VisionReanalysis (quality : json)
| VisionRevalidation.

(** [value < bound] for a decoded value against a float: a [TypeError] on
    anything that is not a number (booleans count as 0 and 1). *)
Definition py_lt (value : json) (bound : float) : exc bool :=
  match value with
  | JNum f => Ok (PrimFloat.ltb f bound)
  | JBool b => Ok (PrimFloat.ltb (float_of_bool b) bound)
  | _ => Raise TypeError
  end.

(** [text[:500] + "..." if len(text) > 500 else text] *)
Definition text_preview (text : string) : string :=
  if (500 <? String.length text)%nat then PyStr.take 500 text ++ "..." else text.

(** Step 3: validation of the extracted fields. *)
Definition validation_stage (w : World) (enable_ai : bool) (text : string)
    (ocr_result : dict) (ocr_method : string) (c : Candidate) : exc Candidate :=
  match _ai_validate_extracted_data w enable_ai text ocr_result with
  | Some validation_result =>
      let corrected_info := corrected_patient_info validation_result in
      do corrected_confidence <- _calculate_confidence corrected_info;
      Ok {| final_result := corrected_info;
            final_method := "ocr_" ++ ocr_method ++ "_ai_validated";
            final_confidence := py_max corrected_confidence (final_confidence c);
            summary := Some (validation_summary validation_result) |}
  | None => Ok c
  end.

(** [data_quality_score]: the validator's quality score, the current
    confidence when there is no summary or no such key. *)
Definition data_quality_score (c : Candidate) : exc json :=
  let overall :=
    match summary c with
    | Some s => overall_validation s
    | None => JObj []
    end in
  json_get overall "data_quality_score" (JNum (final_confidence c)).

(** [result and self._calculate_confidence(result) > final_confidence]:
    the result when the condition holds. *)
Definition improves (result : option dict) (c : Candidate) : exc (option dict) :=
  match result with
  | None => Ok None
  | Some r =>
      if truthy (JObj r)
      then do conf <- _calculate_confidence r;
           Ok (if PrimFloat.ltb (final_confidence c) conf then Some r else None)
      else Ok None
  end.

(** Adoption of a reanalysis result, and the validation of the new fields,
    of which only the summary is kept. *)
Definition adopt (w : World) (enable_ai : bool) (text : string) (result : dict)
    (method : string) (c : Candidate) : exc Candidate :=
  do conf <- _calculate_confidence result;
  Ok {| final_result := result;
        final_method := method;
        final_confidence := conf;
        summary :=
          match _ai_validate_extracted_data w enable_ai text result with
          | Some v => Some (validation_summary v)
          | None => summary c
          end |}.

Definition with_steps {A} (steps : list step) (r : list step * exc A)
  : list step * exc A := (steps ++ fst r, snd r).

(** Step 4: reanalysis when the quality is low. *)
Definition escalation_stage (w : World) (enable_ai : bool) (file_content : bytes)
    (text : string) (c : Candidate) : list step * exc Candidate :=
  match data_quality_score c with
  | Raise e => ([], Raise e)
  | Ok quality =>
      match py_lt quality 0.7%float with
      | Raise e => ([], Raise e)
      | Ok false => ([], Ok c)
      | Ok true =>
          let ai_result := _ai_text_analysis w enable_ai text in
          with_steps [TextReanalysis quality]
            match improves ai_result c with
            | Raise e => ([], Raise e)
            | Ok (Some better) =>
                ([TextRevalidation],
                 adopt w enable_ai text better "ai_text_enhanced" c)
            | Ok None =>
                match py_lt quality 0.6%float with
                | Raise e => ([], Raise e)
                | Ok false => ([], Ok c)
                | Ok true =>
                    let vision_result :=
                      _ai_vision_analysis w enable_ai file_content in
                    with_steps [VisionReanalysis quality]
                      match improves vision_result c with
                      | Raise e => ([], Raise e)
                      | Ok (Some better) =>
                          ([VisionRevalidation],
                           adopt w enable_ai text better "ai_vision_enhanced" c)
                      | Ok None => ([], Ok c)
                      end
                end
            end
      end
  end.

(** The candidate of [process_document] before validation. *)
Definition extracted_candidate (ocr_result : dict) (ocr_method : string)
    (confidence : float) : Candidate :=
  {| final_result := ocr_result;
     final_method := "ocr_" ++ ocr_method;
     final_confidence := confidence;
     summary := None |}.

(** The body of the [try] block of [process_document], with the steps it
    attempted. *)
Definition pipeline (w : World) (enable_ai : bool) (file_content : bytes)
    (use_ai : option bool) : list step * exc (string * Candidate) :=
  let use_ai_for_this_call :=
    match use_ai with Some b => b | None => enable_ai end in
  match _extract_text_from_pdf w file_content with
  | Raise e => ([], Raise e)
  | Ok (text, ocr_method) =>
      let '(first, last) := extract_patient_name_ocr w text in
      let dob := _extract_date_of_birth w text in
      let ocr_result :=
        dict_of_info {| first_name := first; last_name := last;
                        date_of_birth := dob |} in
      match _calculate_confidence ocr_result with
      | Raise e => ([], Raise e)
      | Ok confidence =>
          let c := extracted_candidate ocr_result ocr_method confidence in
          if use_ai_for_this_call && enable_ai then
            with_steps [Validation]
              match validation_stage w enable_ai text ocr_result ocr_method c with
              | Raise e => ([], Raise e)
              | Ok c' =>
                  let r := escalation_stage w enable_ai file_content text c' in
                  (fst r, do c'' <- snd r; Ok (text, c''))
              end
          else ([], Ok (text, c))
      end
  end.

(** The response of the [except] branch. *)
Definition failure (clock : Clock) : ProcessingResult :=
  {| success := false;
     patient_info := None;
     extracted_text := None;
     processing_time_ms := elapsed_ms clock;
     extraction_method := "error";
     confidence_score := 0.0%float;
     timestamp := utcnow clock;
     ai_validation := None |}.

Definition respond (clock : Clock) (outcome : exc (string * Candidate))
  : ProcessingResult :=
  match outcome with
  | Ok (text, c) =>
      {| success := true;
         patient_info := Some (final_result c);
         extracted_text := Some (text_preview text);
         processing_time_ms := elapsed_ms clock;
         extraction_method := final_method c;
         confidence_score := final_confidence c;
         timestamp := utcnow clock;
         ai_validation := summary c |}
  | Raise _ => failure clock
  end.

Definition process_document (w : World) (enable_ai : bool) (clock : Clock)
    (file_content : bytes) (use_ai : option bool) : ProcessingResult :=
  respond clock (snd (pipeline w enable_ai file_content use_ai)).

(** The AI steps a run attempts, in order. *)
Definition steps_attempted (w : World) (enable_ai : bool) (file_content : bytes)
    (use_ai : option bool) : list step :=
  fst (pipeline w enable_ai file_content use_ai).

(** ** Steps of the escalation, by kind *)

Inductive step_kind : Type :=
| ValidationStep
| TextReanalysisStep
| TextRevalidationStep
| VisionReanalysisStep
| VisionRevalidationStep.

Definition kind_of (s : step) : step_kind :=
  match s with
  | Validation => ValidationStep
  | TextReanalysis _ => TextReanalysisStep
  | TextRevalidation => TextRevalidationStep
  | VisionReanalysis _ => VisionReanalysisStep
  | VisionRevalidation => VisionRevalidationStep
  end.

(** The steps that call the validation engine. *)
Definition calls_validator (s : step) : bool :=
  match s with
  | Validation | TextRevalidation | VisionRevalidation => true
  | _ => false
  end.

(** The sequences of steps the reanalysis stage can attempt. *)
Definition escalation_shape (tr : list step) : Prop :=
  tr = []
  \/ exists q,
       py_lt q 0.7%float = Ok true
       /\ (tr = [TextReanalysis q]
           \/ tr = [TextReanalysis q; TextRevalidation]
           \/ (py_lt q 0.6%float = Ok true
               /\ (tr = [TextReanalysis q; VisionReanalysis q]
                   \/ tr = [TextReanalysis q; VisionReanalysis q;
                            VisionRevalidation]))).

(** ** Shape of a judgment

    What the correction loop needs of a decoded reply in order not to raise:
    the reply is a dictionary, its [validation_results] (an empty dictionary
    when missing) is a dictionary, and so is the entry of each validated field
    (again an empty dictionary when missing). *)

Definition is_object (v : json) : bool :=
  match v with JObj _ => true | _ => false end.

Definition entries_shaped (results : dict) (fields : list string) : bool :=
  forallb (fun f => is_object (dict_get_default results f (JObj []))) fields.

Definition judgment_shaped (validation_result : json) : bool :=
  match validation_result with
  | JObj d =>
      match dict_get_default d "validation_results" (JObj []) with
      | JObj results => entries_shaped results validated_fields
      | _ => false
      end
  | _ => false
  end.

(** ** FieldExtractor: patient name *)

Module PyWords.

(** ASCII letters, the cased characters of [str.title]. *)
Definition is_alpha (c : ascii) : bool :=
  let n := nat_of_ascii c in
  ((65 <=? n)%nat && (n <=? 90)%nat) || ((97 <=? n)%nat && (n <=? 122)%nat).

Definition upper_char (c : ascii) : ascii :=
  let n := nat_of_ascii c in
  if (97 <=? n)%nat && (n <=? 122)%nat then ascii_of_nat (n - 32) else c.

(** [s.title()]: a character that follows a letter is lowered, any other is
    raised. *)
Fixpoint title_from (after_letter : bool) (s : string) : string :=
  match s with
  | EmptyString => EmptyString
  | String c r =>
      String (if after_letter then PyStr.lower_char c else upper_char c)
             (title_from (is_alpha c) r)
  end.

Definition title (s : string) : string := title_from false s.

(** [s.split()]: the maximal runs of characters that are not whitespace. *)
Fixpoint split (s : string) : list string :=
  match s with
  | EmptyString => []
  | String c r =>
      if PyStr.is_space c then split r
      else match r with
           | EmptyString => [String c EmptyString]
           | String c' _ =>
               if PyStr.is_space c' then String c EmptyString :: split r
               else match split r with
                    | w :: ws => String c w :: ws
                    | [] => [String c EmptyString]
                    end
           end
  end.

(** [' '.join(parts)] *)
Definition join (parts : list string) : string := String.concat " " parts.

End PyWords.

(** A name pattern by the number of its capturing groups, which decides
    whether [re.findall] returns strings or tuples. *)
Inductive name_pattern : Type :=
| OneGroup (regex : string)
| TwoGroups (regex : string).

Definition name_patterns : list name_pattern :=
  [OneGroup "(?:patient\s+name|name|patient):\s*([A-Za-z]+(?:\s+[A-Za-z]+)*)";
   TwoGroups "([A-Z][a-z]+)\s+([A-Z][a-z]+)(?:\s+(?:DOB|Date\s+of\s+Birth))";
   OneGroup "(?:^|\n)([A-Z][a-z]+\s+[A-Z][a-z]+)(?:\s|$)";
   OneGroup "(?:Mr\.|Mrs\.|Ms\.|Dr\.)\s+([A-Z][a-z]+\s+[A-Z][a-z]+)"].

Definition comma_pattern : string := "([A-Z][a-z]+),\s+([A-Z][a-z]+)".

(** [re.findall] at the call sites of [_extract_patient_name_ocr], with the
    flags of each call site: strings for a pattern with one group, pairs for
    a pattern with two. *)
Record NameRegex : Type := {
  findall_one : string -> string -> list string;
  findall_two : string -> string -> list (string * string)
}.

(** The local variables [first_name] and [last_name]. *)
Definition names := (option string * option string)%type.

Definition some_text (o : option string) : bool :=
  match o with Some s => PyStr.nonempty s | None => false end.

(** A part that looks like an identifier: it contains a digit, or it is one
    of the three words in any letter case. *)
Definition is_artifact (part : string) : bool :=
  PyStr.has_digit part
  || String.eqb (PyStr.lower part) "person"
  || String.eqb (PyStr.lower part) "number"
  || String.eqb (PyStr.lower part) "id".

(** The loop that fills [cleaned_parts]: it stops at the first artifact. *)
Fixpoint cleaned_parts (last_name_parts : list string) : list string :=
  match last_name_parts with
  | [] => []
  | part :: rest => if is_artifact part then [] else part :: cleaned_parts rest
  end.

(** The loop over the matches of a pattern with one group: the first match
    with two parts or more sets the first name, and the last name when a part
    is left after cleaning. *)
Fixpoint scan_single (matches : list string) (current : names) : names :=
  match matches with
  | [] => current
  | m :: rest =>
      match PyWords.split (PyStr.strip m) with
      | first :: (_ :: _) as last_name_parts =>
          (Some (PyWords.title first),
           match cleaned_parts last_name_parts with
           | [] => snd current
           | cleaned => Some (PyWords.title (PyWords.join cleaned))
           end)
      | _ => scan_single rest current
      end
  end.

(** The loop over the matches of a pattern with two groups: the first match
    sets both names. *)
Definition scan_pairs (matches : list (string * string)) (current : names) : names :=
  match matches with
  | [] => current
  | (g1, g2) :: _ =>
      (Some (PyWords.title (PyStr.strip g1)), Some (PyWords.title (PyStr.strip g2)))
  end.

(** The loop over [self.name_patterns]. *)
Fixpoint scan_name_patterns (rx : NameRegex) (text : string)
    (patterns : list name_pattern) (current : names) : names :=
  match patterns with
  | [] => current
  | pattern :: rest =>
      let '(matched, found) :=
        match pattern with
        | OneGroup regex =>
            let matches := findall_one rx regex text in
            (match matches with [] => false | _ => true end,
             scan_single matches current)
        | TwoGroups regex =>
            let matches := findall_two rx regex text in
            (match matches with [] => false | _ => true end,
             scan_pairs matches current)
        end in
      if matched && some_text (fst found) && some_text (snd found)
      then found
      else scan_name_patterns rx text rest found
  end.

Definition _extract_patient_name_ocr (rx : NameRegex) (text : string) : names :=
  let text := PyStr.collapse_ws text in
  let found := scan_name_patterns rx text name_patterns (None, None) in
  if negb (some_text (fst found)) || negb (some_text (snd found))
  then
    match findall_two rx comma_pattern text with
    | [] => found
    | (g1, g2) :: _ => (Some (PyWords.title g2), Some (PyWords.title g1))
    end
  else found.

(** ** The processor's constructor *)

(** [a or b] on optional strings. *)
Definition or_else (a b : option string) : option string :=
  if some_text a then a else b.

(** The value of [self.enable_ai] after [__init__]: [chat_model_created]
    tells whether the construction of the chat model succeeds. *)
Definition init_enable_ai (enable_ai langchain_available : bool)
    (openai_api_key environment_key : option string)
    (chat_model_created : bool) : bool :=
  let enable_ai := enable_ai && langchain_available in
  let openai_api_key := or_else openai_api_key environment_key in
  if enable_ai && langchain_available && some_text openai_api_key
  then if chat_model_created then true else false
  else false.

(** ** Auxiliary notions for the properties *)

(** The character occurs in the string. *)
Fixpoint mentions (c : ascii) (s : string) : bool :=
  match s with
  | EmptyString => false
  | String a r => Ascii.eqb a c || mentions c r
  end.

(** The keys of a dictionary, in order. *)
Definition keys (d : dict) : list string := map fst d.

Definition patient_keys : list string :=
  ["first_name"; "last_name"; "date_of_birth"].

(** A page on which the OCR engine recognizes nothing but whitespace. *)
Definition blank_page (e : ocr_event) : bool :=
  match e with
  | Recognized page_text => negb (PyStr.nonempty (PyStr.strip page_text))
  | OcrFails _ => false
  end.

(** The same documents and patterns, another reasoning service. *)
Definition with_reasoning (w : World) (llm : request -> reply)
    (loads : string -> decoding) (image : bytes -> exc string) : World :=
  {| pdfplumber_pages := pdfplumber_pages w;
     pypdf2_pages := pypdf2_pages w;
     ocr_page_runs := ocr_page_runs w;
     pdf_to_base64_image := image;
     re_findall := re_findall w;
     extract_patient_name_ocr := extract_patient_name_ocr w;
     llm_ainvoke := llm;
     json_loads := loads |}.

(** The fields the patterns extract from a text. *)
Definition extracted_info (w : World) (text : string) : PatientInfo :=
  {| first_name := fst (extract_patient_name_ocr w text);
     last_name := snd (extract_patient_name_ocr w text);
     date_of_birth := _extract_date_of_birth w text |}.

(** The provenance strings of a text that was extracted by [method]. *)
Definition provenance (method : string) : list string :=
  [("ocr_" ++ method)%string; ("ocr_" ++ method ++ "_ai_validated")%string;
   "ai_text_enhanced"; "ai_vision_enhanced"].

Definition cascade_methods : list string :=
  ["pdfplumber"; "pypdf2"; "tesseract"; "none"].

Definition is_string (v : json) : bool :=
  match v with JStr _ => true | _ => false end.

(** Both names are present, or a clean last name and a date of birth are. *)
Definition complete_enough (p : PatientInfo) : bool :=
  (present (first_name p) && present (last_name p))
  || (present (last_name p) && clean_last_name (last_name p)
      && present (date_of_birth p)).

(** No two of the three fields are present. *)
Definition at_most_one_field (p : PatientInfo) : bool :=
  negb (present (first_name p) && present (last_name p))
  && negb (present (first_name p) && present (date_of_birth p))
  && negb (present (last_name p) && present (date_of_birth p)).

(** What the reanalysis stage does: it leaves the candidate as it is, or it
    raises, or it adopts the result of the text reanalysis, or that of the
    vision reanalysis. *)
Inductive escalation_case (w : World) (enable_ai : bool) (file_content : bytes)
    (text : string) (c : Candidate) : list step * exc Candidate -> Prop :=
| EscalationKeeps (steps : list step) :
    ~ In TextRevalidation steps -> ~ In VisionRevalidation steps ->
    escalation_case w enable_ai file_content text c (steps, Ok c)
| EscalationRaises (steps : list step) (e : exn) :
    ~ In TextRevalidation steps -> ~ In VisionRevalidation steps ->
    escalation_case w enable_ai file_content text c (steps, Raise e)
| EscalationAdoptsText (q : json) (r : dict) (conf : float) (c' : Candidate) :
    _ai_text_analysis w enable_ai text = Some r ->
    _calculate_confidence r = Ok conf ->
    PrimFloat.ltb (final_confidence c) conf = true ->
    final_result c' = r -> final_method c' = "ai_text_enhanced"%string ->
    final_confidence c' = conf ->
    escalation_case w enable_ai file_content text c
      ([TextReanalysis q; TextRevalidation], Ok c')
| EscalationAdoptsVision (q : json) (r : dict) (conf : float) (c' : Candidate) :
    _ai_vision_analysis w enable_ai file_content = Some r ->
    _calculate_confidence r = Ok conf ->
    PrimFloat.ltb (final_confidence c) conf = true ->
    final_result c' = r -> final_method c' = "ai_vision_enhanced"%string ->
    final_confidence c' = conf ->
    escalation_case w enable_ai file_content text c
      ([TextReanalysis q; VisionReanalysis q; VisionRevalidation], Ok c').

(** The shape the name scan keeps: a name is in title case, and a last name
    comes with a first name. *)
Record names_shape (n : names) : Prop := {
  first_titled : forall f, fst n = Some f -> PyWords.title f = f;
  last_titled : forall l, snd n = Some l -> PyWords.title l = l;
  first_with_last : snd n <> None -> fst n <> None
}.

Definition last_digit_free (n : names) : Prop :=
  forall l, snd n = Some l -> PyStr.has_digit l = false.

(** No group of a match of a pattern with two groups has a digit, as is the
    case of groups that match letters only. *)
Definition pairs_digit_free (rx : NameRegex) : Prop :=
  forall regex text g1 g2,
    In (g1, g2) (findall_two rx regex text) ->
    PyStr.has_digit g1 = false /\ PyStr.has_digit g2 = false.

(** ** The validation endpoint of [app/routers/documents.py]

    The body of [validate_extracted_data], for a request that passed the
    authentication and the rate limit. *)

(** [s.endswith(suffix)] *)
Fixpoint endswith (suffix s : string) : bool :=
  if String.eqb s suffix then true
  else match s with
       | EmptyString => false
       | String _ r => endswith suffix r
       end.

Inductive http_error : Type :=
| HTTPException (status_code : nat) (detail : string).

Definition max_upload_size : N := 10 * 1024 * 1024.

(** The checks on the upload that open the three endpoints: the error they
    raise, if any. *)
Definition upload_gate (filename : string) (file_content : bytes)
  : option http_error :=
  if negb (endswith ".pdf" (PyStr.lower filename))
  then Some (HTTPException 400 "Only PDF files are supported")
  else
    let file_size := N.of_nat (List.length file_content) in
    if (max_upload_size <? file_size)%N
    then Some (HTTPException 400 "File size must be less than 10MB")
    else if (file_size =? 0)%N
    then Some (HTTPException 400 "File is empty")
    else None.

(** The dictionary the endpoint returns, without its constant entries
    [success] and [message]. *)
Record ValidationResponse : Type := {
  response_filename : string;
  original_data : dict;
  response_result : ValidationOutcome;
  response_timestamp : Z
}.

(** What the constructor of the processor finds when the endpoint builds it
    with [DocumentProcessor(enable_ai=True)]. *)
Record Installation : Type := {
  has_langchain : bool;
  env_api_key : option string;
  chat_model_ok : bool
}.

Definition endpoint_processor (i : Installation) : bool :=
  init_enable_ai true (has_langchain i) None (env_api_key i) (chat_model_ok i).

(** [str(e)] of an exception the cascade raises. *)
Definition exn_message (e : exn) : string :=
  match e with
  | ValueError msg | ExternalError msg => msg
  | AttributeError | TypeError => EmptyString
  end.

Definition validate_extracted_data (w : World) (i : Installation) (clock : Clock)
    (filename : option string) (file_content : bytes)
    (first last dob : option string) : ValidationResponse + http_error :=
  match filename with
  | None =>
      inr (HTTPException 500
             "Failed to validate data: 'NoneType' object has no attribute 'lower'")
  | Some name =>
      match upload_gate name file_content with
      | Some error => inr error
      | None =>
          let patient_info :=
            dict_of_info {| first_name := first; last_name := last;
                            date_of_birth := dob |} in
          match _extract_text_from_pdf w file_content with
          | Raise e =>
              inr (HTTPException 500
                     ("Failed to validate data: " ++ exn_message e))
          | Ok (text, _) =>
              match _ai_validate_extracted_data w (endpoint_processor i) text
                      patient_info with
              | None =>
                  inr (HTTPException 503 "AI validation service is not available")
              | Some result =>
                  inl {| response_filename := name;
                         original_data := patient_info;
                         response_result := result;
                         response_timestamp := utcnow clock |}
              end
          end
      end
  end.

(** * Example documents

    Concrete collaborators used to run the pipeline on explicit inputs.  A
    decoder is given by the table of the texts it decodes; every other text is
    a [json.JSONDecodeError]. *)

Definition dq : string := String (ascii_of_nat 34) EmptyString.

(** The JSON string literal of a plain word. *)
Definition quoted (s : string) : string := dq ++ s ++ dq.

Fixpoint decode_with (table : list (string * json)) (s : string) : decoding :=
  match table with
  | [] => JSONDecodeError
  | (t, v) :: rest => if String.eqb s t then Decoded v else decode_with rest s
  end.

(** A digitally authored document: [pdfplumber] and [PyPDF2] read the given
    pages, the name patterns find [names], the date patterns find [dates]. *)
Definition text_document (plumber pypdf : list page_event)
    (names : option string * option string) (dates : list string)
    (llm : request -> reply) (table : list (string * json)) : World :=
  {| pdfplumber_pages := fun _ => plumber;
     pypdf2_pages := fun _ => pypdf;
     ocr_page_runs := fun _ => [];
     pdf_to_base64_image := fun _ => Ok "/9j/4AAQSkZJRg==";
     re_findall := fun _ _ => dates;
     extract_patient_name_ocr := fun _ => names;
     llm_ainvoke := llm;
     json_loads := decode_with table |}.

Definition no_llm : request -> reply := fun _ => InvokeFails "Connection error.".

(** Bytes that are not a PDF: both libraries refuse to open them, and so does
    the OCR path, which opens the file with [pdfplumber] too. *)
Definition unreadable : World :=
  {| pdfplumber_pages := fun _ => [PageFails "No /Root object! - Is this really a PDF?"];
     pypdf2_pages := fun _ => [PageFails "Cannot read an empty file"];
     ocr_page_runs := fun _ => [OcrFails "No /Root object! - Is this really a PDF?"];
     pdf_to_base64_image := fun _ => Raise (ExternalError "No /Root object! - Is this really a PDF?");
     re_findall := fun _ _ => [];
     extract_patient_name_ocr := fun _ => (None, None);
     llm_ainvoke := no_llm;
     json_loads := decode_with [] |}.

(** A scanned document on a machine without the OCR engine. *)
Definition scanned_without_engine : World :=
  {| pdfplumber_pages := fun _ => [PageText None];
     pypdf2_pages := fun _ => [PageText (Some "")];
     ocr_page_runs := fun _ =>
       [OcrFails "tesseract is not installed or it's not in your PATH."];
     pdf_to_base64_image := fun _ => Ok "/9j/4AAQSkZJRg==";
     re_findall := fun _ _ => [];
     extract_patient_name_ocr := fun _ => (None, None);
     llm_ainvoke := no_llm;
     json_loads := decode_with [] |}.

Definition john_smith_page : string := "Patient Name: John Smith DOB: 01/15/1980".

Definition john_smith : option string * option string := (Some "John", Some "Smith").

(** A two-page document whose second page [pdfplumber] cannot read, while
    [PyPDF2] reads both. *)
Definition second_page_damaged : World :=
  text_document
    [PageText (Some "Patient Name: John Smith"); PageFails "Unexpected EOF"]
    [PageText (Some "Patient Name: John Smith"); PageText (Some "DOB: 01/15/1980")]
    john_smith ["01/15/1980"] no_llm [].

(** A one-page document and a language model that answers in prose. *)
Definition prose_reply : string := "I'm sorry, I can't validate this document.".

Definition chatty_model : World :=
  text_document [PageText (Some john_smith_page)] [] john_smith ["01/15/1980"]
    (fun _ => Content prose_reply) [].

(** A validator whose judgment gives the quality score as [null]. *)
Definition null_quality_reply : string :=
  "{" ++ quoted "validation_results" ++ ": {}, " ++ quoted "overall_validation"
      ++ ": {" ++ quoted "data_quality_score" ++ ": null}}".

Definition null_quality_judgment : json :=
  JObj [("validation_results", JObj []);
        ("overall_validation", JObj [("data_quality_score", JNull)])].

Definition null_quality_model : World :=
  text_document [PageText (Some john_smith_page)] [] john_smith ["01/15/1980"]
    (fun _ => Content null_quality_reply)
    [(null_quality_reply, null_quality_judgment)].

(** A document in which the patterns find nothing, and a validator that
    answers with the empty object. *)
Definition nothing_found : World :=
  text_document [PageText (Some "Referral form - see attached")] []
    (None, None) [] (fun _ => Content "{}") [("{}", JObj [])].

Definition no_fields : PatientInfo :=
  {| first_name := None; last_name := None; date_of_birth := None |}.

(** A validator that corrects the last name. *)
Definition correction_reply : string :=
  "{" ++ quoted "validation_results" ++ ": {" ++ quoted "last_name" ++ ": {"
      ++ quoted "is_valid" ++ ": false, " ++ quoted "issues" ++ ": ["
      ++ quoted "trailing identifier" ++ "], " ++ quoted "corrected_value" ++ ": "
      ++ quoted "Smith" ++ "}}, " ++ quoted "overall_validation" ++ ": {"
      ++ quoted "data_quality_score" ++ ": 0.9}}".

Definition correction_judgment : json :=
  JObj [("validation_results",
         JObj [("last_name",
                JObj [("is_valid", JBool false);
                      ("issues", JArr [JStr "trailing identifier"]);
                      ("corrected_value", JStr "Smith")])]);
        ("overall_validation", JObj [("data_quality_score", JNum 0.9%float)])].

Definition smith_id7_page : string := "Patient Name: John Smith Id7".

Definition smith_id7 : PatientInfo :=
  {| first_name := Some "John"; last_name := Some "Smith Id7";
     date_of_birth := None |}.

Definition correcting_model : World :=
  text_document [PageText (Some smith_id7_page)] []
    (Some "John", Some "Smith Id7") []
    (fun _ => Content correction_reply)
    [(correction_reply, correction_judgment)].

Definition smith_id7_extracted : Candidate :=
  extracted_candidate (dict_of_info smith_id7) "pdfplumber" (0.4 + 0.4)%float.

(** A document in which the patterns find nothing; the validator answers in
    prose and the text analysis finds the patient. *)
Definition analysis_reply : string :=
  "{" ++ quoted "first_name" ++ ": " ++ quoted "John" ++ ", "
      ++ quoted "last_name" ++ ": " ++ quoted "Smith" ++ ", "
      ++ quoted "date_of_birth" ++ ": " ++ quoted "01/15/1980" ++ "}".

Definition analysis_judgment : json :=
  JObj [("first_name", JStr "John"); ("last_name", JStr "Smith");
        ("date_of_birth", JStr "01/15/1980")].

Definition analysis_helps : World :=
  text_document [PageText (Some "Pt: SMITH JOHN b. 15 Jan 1980")] []
    (None, None) []
    (fun r => match r with
              | TextAnalysisPrompt _ => Content analysis_reply
              | _ => Content prose_reply
              end)
    [(analysis_reply, analysis_judgment)].

(** A validator that replaces the last name by a number. *)
Definition numeric_correction_reply : string :=
  "{" ++ quoted "validation_results" ++ ": {" ++ quoted "last_name" ++ ": {"
      ++ quoted "is_valid" ++ ": false, " ++ quoted "issues" ++ ": ["
      ++ quoted "record number in place of the name" ++ "], "
      ++ quoted "corrected_value" ++ ": 123}}, "
      ++ quoted "overall_validation" ++ ": {"
      ++ quoted "data_quality_score" ++ ": 0.9}}".

Definition numeric_correction_judgment : json :=
  JObj [("validation_results",
         JObj [("last_name",
                JObj [("is_valid", JBool false);
                      ("issues", JArr [JStr "record number in place of the name"]);
                      ("corrected_value", JNum 123%float)])]);
        ("overall_validation", JObj [("data_quality_score", JNum 0.9%float)])].

Definition john_smith_undated : PatientInfo :=
  {| first_name := Some "John"; last_name := Some "Smith";
     date_of_birth := None |}.

Definition numeric_correction_model : World :=
  text_document [PageText (Some "Patient Name: John Smith")] [] john_smith []
    (fun _ => Content numeric_correction_reply)
    [(numeric_correction_reply, numeric_correction_judgment)].

(** A model that answers the number 5. *)
Definition number_model : World :=
  text_document [] [] john_smith [] (fun _ => Content "5")
                [("5", JNum 5%float)].

Definition noon : Clock := {| elapsed_ms := 12; utcnow := 1762257600 |}.

(** A three-page scan of which only the second page has text. *)
Definition middle_page_scan : World :=
  {| pdfplumber_pages := fun _ => [PageText None; PageText None; PageText None];
     pypdf2_pages := fun _ => [PageText (Some ""); PageText (Some ""); PageText (Some "")];
     ocr_page_runs := fun _ =>
       [Recognized " "; Recognized "Patient Name: John Smith"; Recognized ""];
     pdf_to_base64_image := fun _ => Ok "/9j/4AAQSkZJRg==";
     re_findall := fun _ _ => [];
     extract_patient_name_ocr := fun _ => john_smith;
     llm_ainvoke := no_llm;
     json_loads := decode_with [] |}.

(** A scan of two blank pages. *)
Definition blank_scan : World :=
  {| pdfplumber_pages := fun _ => [PageText None; PageText None];
     pypdf2_pages := fun _ => [PageText (Some ""); PageText (Some "")];
     ocr_page_runs := fun _ => [Recognized " "; Recognized nl];
     pdf_to_base64_image := fun _ => Ok "/9j/4AAQSkZJRg==";
     re_findall := fun _ _ => [];
     extract_patient_name_ocr := fun _ => (None, None);
     llm_ainvoke := no_llm;
     json_loads := decode_with [] |}.

(** The matches of a pattern in a table of matches, for a regular-expression
    engine given by what it finds in one text. *)
Fixpoint matches_in {A : Type} (table : list (string * list A)) (regex : string)
  : list A :=
  match table with
  | [] => []
  | (r, ms) :: rest => if String.eqb regex r then ms else matches_in rest regex
  end.

(** A document given by its page, the names found in it and the table of the
    matches of the date patterns. *)
Definition dated_document (page : string) (found : option string * option string)
    (dates : list (string * list string)) : World :=
  {| pdfplumber_pages := fun _ => [PageText (Some page)];
     pypdf2_pages := fun _ => [];
     ocr_page_runs := fun _ => [];
     pdf_to_base64_image := fun _ => Ok "/9j/4AAQSkZJRg==";
     re_findall := fun pattern _ => matches_in dates pattern;
     extract_patient_name_ocr := fun _ => found;
     llm_ainvoke := no_llm;
     json_loads := decode_with [] |}.

(** "Seen 13/40/1990, DOB 01/15/1980": the unlabelled pattern with the year
    last finds an impossible date and then a possible one; no other pattern
    matches. *)
Definition impossible_date_first : World :=
  dated_document "Seen 13/40/1990, DOB 01/15/1980" john_smith
    [("(\d{1,2}[/-]\d{1,2}[/-]\d{4})", ["13/40/1990"; "01/15/1980"])].

(** "DOB: 1980-01-15": the two patterns with the year first find the date. *)
Definition dashed_date : World :=
  dated_document "DOB: 1980-01-15" john_smith
    [("(?:DOB|Date\s+of\s+Birth|Birth\s+Date):\s*(\d{4}[/-]\d{1,2}[/-]\d{1,2})",
      ["1980-01-15"]);
     ("(\d{4}[/-]\d{1,2}[/-]\d{1,2})", ["1980-01-15"])].

(** All three fields present, the last name with an identifier in it. *)
Definition smith_id7_born : PatientInfo :=
  {| first_name := Some "John"; last_name := Some "Smith Id7";
     date_of_birth := Some "01/15/1980" |}.

(** A clean last name and a date of birth, no first name. *)
Definition no_first_name : PatientInfo :=
  {| first_name := None; last_name := Some "Smith";
     date_of_birth := Some "01/15/1980" |}.

(** What the correcting validator returns for John Smith Id7. *)
Definition correction_outcome : ValidationOutcome :=
  {| corrected_patient_info :=
       [("first_name", JStr "John"); ("last_name", JStr "Smith");
        ("date_of_birth", JNull)];
     validation_summary :=
       {| validation_performed := true;
          validation_results :=
            JObj [("last_name",
                   JObj [("is_valid", JBool false);
                         ("issues", JArr [JStr "trailing identifier"]);
                         ("corrected_value", JStr "Smith")])];
          overall_validation := JObj [("data_quality_score", JNum 0.9%float)];
          corrections_applied :=
            [{| field := "last_name"; original := JStr "Smith Id7";
                corrected := JStr "Smith";
                reason := JArr [JStr "trailing identifier"] |}] |} |}.

(** A reply that wraps its object in prose, and gives a score of its own. *)
Definition wrapped_reply : string :=
  "Here is the result: {" ++ quoted "last_name" ++ ": " ++ quoted "Smith" ++ ", "
    ++ quoted "confidence_score" ++ ": 0.8} Let me know if you need more.".

Definition wrapped_object : string :=
  "{" ++ quoted "last_name" ++ ": " ++ quoted "Smith" ++ ", "
    ++ quoted "confidence_score" ++ ": 0.8}".

Definition wrapped_model : World :=
  text_document [PageText (Some "Pt: SMITH")] [] (None, None) []
    (fun _ => Content wrapped_reply)
    [(wrapped_object,
      JObj [("last_name", JStr "Smith"); ("confidence_score", JNum 0.8%float)])].

(** A document in which the patterns and the text reanalysis find nothing;
    the validator answers in prose and the vision reanalysis finds the
    patient. *)
Definition vision_helps : World :=
  text_document [PageText (Some "[handwritten form]")] []
    (None, None) []
    (fun r => match r with
              | VisionAnalysisPrompt _ => Content analysis_reply
              | _ => Content prose_reply
              end)
    [(analysis_reply, analysis_judgment)].

Definition regex_table (one : list (string * list string))
    (two : list (string * list (string * string))) : NameRegex :=
  {| findall_one := fun regex _ => matches_in one regex;
     findall_two := fun regex _ => matches_in two regex |}.

Definition labelled_name_regex : string :=
  "(?:patient\s+name|name|patient):\s*([A-Za-z]+(?:\s+[A-Za-z]+)*)".

(** The matches in "patient name: MARY ANN smith person number 12". *)
Definition mary_ann_smith : NameRegex :=
  regex_table [(labelled_name_regex, ["MARY ANN smith person number"])] [].

(** The matches in "Doe, Jane 03/04/1975". *)
Definition doe_jane : NameRegex :=
  regex_table [] [(comma_pattern, [("Doe", "Jane")])].

(** The matches in "Patient Name: John ID 4471 Record for Smith, John". *)
Definition record_for_smith : NameRegex :=
  regex_table [(labelled_name_regex, ["John ID"])]
              [(comma_pattern, [("Smith", "John")])].

(** A machine with the library and an API key, and one without a key. *)
Definition with_key : Installation :=
  {| has_langchain := true; env_api_key := Some "sk-test"; chat_model_ok := true |}.

Definition without_key : Installation :=
  {| has_langchain := true; env_api_key := None; chat_model_ok := true |}.

Definition one_byte : bytes := [Byte.x25].

(** * Properties *)

(** ** ConfidenceScorer *)

Local Open Scope float_scope.

(** The values the rubric can take. *)
Definition score_values : list float :=
  [0.0; 0.2; 0.4; 0.4 + 0.2; 0.4 + 0.1; 0.4 + 0.1 + 0.2; 0.4 + 0.4;
   0.4 + 0.4 + 0.2; 0.4 + 0.4 + 0.1; 1.0].

(** What a run does: it fails, or it returns the extracted fields, validated
    or not, or it returns the fields of the text reanalysis, or those of the
    vision reanalysis. *)
Inductive run_case (w : World) (enable_ai : bool) (file_content : bytes)
  : list step * exc (string * Candidate) -> Prop :=
| RunFails (steps : list step) (e : exn) :
    ~ In TextRevalidation steps -> ~ In VisionRevalidation steps ->
    run_case w enable_ai file_content (steps, Raise e)
| RunKeeps (steps : list step) (text method : string) (c : Candidate) :
    _extract_text_from_pdf w file_content = Ok (text, method) ->
    In (final_confidence c) score_values ->
    PrimFloat.leb (rubric (extracted_info w text)) (final_confidence c) = true ->
    keys (final_result c) = patient_keys ->
    final_method c = ("ocr_" ++ method)%string
    \/ final_method c = ("ocr_" ++ method ++ "_ai_validated")%string ->
    ~ In TextRevalidation steps -> ~ In VisionRevalidation steps ->
    run_case w enable_ai file_content (steps, Ok (text, c))
| RunAdoptsText (steps : list step) (text method : string) (c : Candidate) :
    _extract_text_from_pdf w file_content = Ok (text, method) ->
    _ai_text_analysis w enable_ai text = Some (final_result c) ->
    _calculate_confidence (final_result c) = Ok (final_confidence c) ->
    PrimFloat.ltb (rubric (extracted_info w text)) (final_confidence c) = true ->
    final_method c = "ai_text_enhanced"%string ->
    In TextRevalidation steps -> ~ In VisionRevalidation steps ->
    run_case w enable_ai file_content (steps, Ok (text, c))
| RunAdoptsVision (steps : list step) (text method : string) (c : Candidate) :
    _extract_text_from_pdf w file_content = Ok (text, method) ->
    _ai_vision_analysis w enable_ai file_content = Some (final_result c) ->
    _calculate_confidence (final_result c) = Ok (final_confidence c) ->
    PrimFloat.ltb (rubric (extracted_info w text)) (final_confidence c) = true ->
    final_method c = "ai_vision_enhanced"%string ->
    ~ In TextRevalidation steps -> In VisionRevalidation steps ->
    run_case w enable_ai file_content (steps, Ok (text, c)).

(** Case analysis on a hypothesis [H : In x score_values]. *)
Ltac score_cases H :=
  unfold score_values in H; cbn [In] in H;
  repeat (destruct H as [<-|H]; [|]); try contradiction.

Lemma clean_last_name_search (s : string) :
  clean_last_name (Some s) = negb (artifact_search (PyStr.lower s)).
Proof.
  unfold clean_last_name, artifact_search.
  now rewrite !negb_orb.
Qed.

Lemma nonempty_json_of_field (o : option string) :
  truthy (json_of_field o) = present o.
Proof. now destruct o. Qed.

Lemma confidence_of_info (p : PatientInfo) :
  _calculate_confidence (dict_of_info p) = Ok (rubric p).
Proof.
  destruct p as [fn ln dob].
  unfold _calculate_confidence, rubric, dict_of_info, dict_get, dict_get_default.
  cbn [dict_lookup String.eqb first_name last_name date_of_birth].
  cbn -[PrimFloat.add py_min truthy json_of_field present clean_last_name].
  rewrite !nonempty_json_of_field.
  destruct ln as [l|]; cbn [present json_of_field py_lower exc_bind].
  - rewrite clean_last_name_search.
    destruct (present fn), (PyStr.nonempty l), (present dob),
      (artifact_search (PyStr.lower l)); reflexivity.
  - destruct (present fn), (present dob); reflexivity.
Qed.

Lemma rubric_in_score_values (p : PatientInfo) : In (rubric p) score_values.
Proof.
  unfold rubric.
  destruct (present (first_name p)), (present (last_name p)),
    (clean_last_name (last_name p)), (present (date_of_birth p));
    vm_compute; tauto.
Qed.

Lemma score_values_bounded (x : float) :
  In x score_values -> (0.0 <=? x) = true /\ (x <=? 1.0) = true.
Proof.
  intros H; score_cases H; split; reflexivity.
Qed.

(** C1: for every PatientInfo the scorer returns the additive rubric (0.4 for
    a present first name, 0.4 for a present last name, 0.1 more when that last
    name has no digit and none of "person", "number", "id" in any letter
    case, 0.2 for a present date of birth, the sum clamped to 1.0), and the
    score lies between 0.0 and 1.0. *)
Theorem confidence_is_rubric (p : PatientInfo) :
  _calculate_confidence (dict_of_info p) = Ok (rubric p)
  /\ (0.0 <=? rubric p) = true /\ (rubric p <=? 1.0) = true.
Proof.
  split; [apply confidence_of_info|].
  apply score_values_bounded, rubric_in_score_values.
Qed.

Local Close Scope float_scope.

(** ** Date plausibility *)

Lemma in_range_spec (lo x hi : Z) :
  in_range lo x hi = true <-> (lo <= x <= hi)%Z.
Proof.
  unfold in_range. rewrite andb_true_iff, !Z.leb_le. tauto.
Qed.

Lemma month_day_year_spec (len : nat) (m d y : Z) :
  (len =? 4)%nat && (in_range 1 m 12 && in_range 1 d 31 && in_range 1900 y 2030)
  = true
  <-> len = 4 /\ month_ok m /\ day_ok d /\ year_ok y.
Proof.
  unfold month_ok, day_ok, year_ok.
  rewrite !andb_true_iff, Nat.eqb_eq, !in_range_spec. tauto.
Qed.

Lemma year_month_day_spec (len : nat) (y m d : Z) :
  (len =? 4)%nat && (in_range 1900 y 2030 && in_range 1 m 12 && in_range 1 d 31)
  = true
  <-> len = 4 /\ year_ok y /\ month_ok m /\ day_ok d.
Proof.
  unfold month_ok, day_ok, year_ok.
  rewrite !andb_true_iff, Nat.eqb_eq, !in_range_spec. tauto.
Qed.

Lemma valid_date_format_sound (s : string) :
  _is_valid_date_format s = true -> plausible_date s.
Proof.
  unfold _is_valid_date_format, date_format_check, plausible_date, is_integer_field.
  destruct (PyStr.split "/" s) as [|f0 [|f1 [|f2 [|]]]]; try discriminate.
  destruct (py_int f0) as [n0|] eqn:E0; cbn [exc_bind]; try discriminate.
  destruct (py_int f1) as [n1|] eqn:E1; cbn [exc_bind]; try discriminate.
  destruct (py_int f2) as [n2|] eqn:E2; cbn [exc_bind]; try discriminate.
  intros H. exists f0, f1, f2, n0, n1, n2.
  repeat split; trivial.
  match type of H with
  | context [if ?a then _ else if ?b then _ else _] =>
      destruct a eqn:A; [left; now apply month_day_year_spec|];
      destruct b eqn:B; [right; now apply year_month_day_spec|discriminate]
  end.
Qed.

Lemma valid_date_format_complete (s : string) :
  plausible_date s -> _is_valid_date_format s = true.
Proof.
  unfold _is_valid_date_format, date_format_check, plausible_date, is_integer_field.
  intros (f0 & f1 & f2 & n0 & n1 & n2 & -> & -> & -> & -> & H).
  cbn [exc_bind].
  destruct H as [H|H].
  - apply month_day_year_spec in H. now rewrite H.
  - apply year_month_day_spec in H. rewrite H.
    now destruct ((String.length f2 =? 4)%nat && _).
Qed.

(** A date of birth returned by the extractor passed the plausibility check. *)
Lemma extracted_dob_is_plausible (w : World) (text date_str : string) :
  _extract_date_of_birth w text = Some date_str -> plausible_date date_str.
Proof.
  unfold _extract_date_of_birth.
  induction dob_patterns as [|pattern rest IH]; cbn [dob_scan]; [discriminate|].
  destruct (re_findall w pattern (PyStr.collapse_ws text)) as [|m ms]; [exact IH|].
  destruct (_is_valid_date_format (normalize_separators (PyStr.strip m))) eqn:Hv;
    [|exact IH].
  intros [= <-]. now apply valid_date_format_sound.
Qed.

(** C6: the plausibility check accepts a date string exactly when it has
    three integer fields separated by slashes and either the third field has
    length 4 with (month, day, year) in range or the first field has length 4
    with (year, month, day) in range; "13/40/1990" is rejected, "1980-01-15"
    normalizes to "1980/01/15" and is accepted year first, and "02/30/1990"
    is accepted. *)
Theorem date_plausibility :
  (forall s, _is_valid_date_format s = true <-> plausible_date s)
  /\ _is_valid_date_format (normalize_separators "13/40/1990") = false
  /\ normalize_separators "1980-01-15" = "1980/01/15"
  /\ _is_valid_date_format "1980/01/15" = true
  /\ (exists y m d,
        PyStr.split "/" "1980/01/15" = [y; m; d] /\ String.length y = 4
        /\ String.length d <> 4)
  /\ _is_valid_date_format (normalize_separators "02/30/1990") = true.
Proof.
  split.
  { intros s; split;
      [apply valid_date_format_sound | apply valid_date_format_complete]. }
  repeat split; try reflexivity.
  exists "1980", "01", "15". repeat split; discriminate.
Qed.

(** ** ValidationAndCorrectionEngine *)

(** With the fallback judgment no field is corrected, whatever the candidate. *)
Lemma summarize_fallback (patient_info : dict) :
  summarize fallback_validation_result patient_info
  = Ok {| corrected_patient_info := patient_info;
          validation_summary :=
            {| validation_performed := true;
               validation_results :=
                 JObj [("first_name", fallback_field);
                       ("last_name", fallback_field);
                       ("date_of_birth", fallback_field)];
               overall_validation :=
                 JObj [("overall_confidence", JNum 0.5%float);
                       ("data_quality_score", JNum 0.5%float);
                       ("validation_summary",
                        JStr "Validation failed due to response parsing error");
                       ("recommendations",
                        JArr [JStr "Manual review recommended due to validation error"])];
               corrections_applied := [] |} |}.
Proof. reflexivity. Qed.

Lemma validate_undecodable (w : World) (text : string) (patient_info : dict)
    (content : string) :
  patient_info <> [] ->
  llm_ainvoke w (validation_request text patient_info) = Content content ->
  json_loads w (json_str_of (PyStr.strip content)) = JSONDecodeError ->
  _ai_validate_extracted_data w true text patient_info
  = match summarize fallback_validation_result patient_info with
    | Ok outcome => Some outcome
    | Raise _ => None
    end.
Proof.
  intros Hne Hllm Hdec. unfold _ai_validate_extracted_data.
  destruct patient_info as [|kv rest]; [contradiction|].
  cbn [negb orb]. unfold decode_judgment. now rewrite Hllm, Hdec.
Qed.

(** C5, as the code has it: when [json.loads] rejects the text of the
    reasoning service's reply with a [json.JSONDecodeError], validation
    neither fails nor returns null: it returns a summary whose three per-field
    results have is_valid = true, confidence = 0.5 and the parse-failure
    issue, with an overall data_quality_score of 0.5 and the recommendation of
    a manual review; the candidate is returned unchanged and no correction is
    recorded. *)
Theorem malformed_reply_degrades (w : World) (text : string)
    (patient_info : dict) (content : string) :
  patient_info <> [] ->
  llm_ainvoke w (validation_request text patient_info) = Content content ->
  json_loads w (json_str_of (PyStr.strip content)) = JSONDecodeError ->
  exists outcome,
    _ai_validate_extracted_data w true text patient_info = Some outcome
    /\ corrected_patient_info outcome = patient_info
    /\ corrections_applied (validation_summary outcome) = []
    /\ (forall f, In f validated_fields ->
          exists result,
            json_get (validation_results (validation_summary outcome)) f JNull
            = Ok result
            /\ json_get result "is_valid" JNull = Ok (JBool true)
            /\ json_get result "confidence" JNull = Ok (JNum 0.5%float)
            /\ json_get result "issues" JNull
               = Ok (JArr [JStr "Unable to validate due to parsing error"]))
    /\ json_get (overall_validation (validation_summary outcome))
                "data_quality_score" JNull = Ok (JNum 0.5%float)
    /\ json_get (overall_validation (validation_summary outcome))
                "recommendations" JNull
       = Ok (JArr [JStr "Manual review recommended due to validation error"]).
Proof.
  intros Hne Hllm Hdec.
  rewrite (validate_undecodable w text patient_info content Hne Hllm Hdec).
  rewrite summarize_fallback.
  eexists; split; [reflexivity|].
  cbn [corrected_patient_info validation_summary corrections_applied
       validation_results overall_validation].
  repeat split.
  intros f [<-|[<-|[<-|[]]]]; exists fallback_field; repeat split.
Qed.

Lemma malformed_reply_degrades_witness :
  dict_of_info smith_id7 <> []
  /\ llm_ainvoke chatty_model
       (validation_request john_smith_page (dict_of_info smith_id7))
     = Content prose_reply
  /\ json_loads chatty_model (json_str_of (PyStr.strip prose_reply))
     = JSONDecodeError
  /\ exists outcome,
       _ai_validate_extracted_data chatty_model true john_smith_page
         (dict_of_info smith_id7) = Some outcome
       /\ json_get (overall_validation (validation_summary outcome))
                   "data_quality_score" JNull = Ok (JNum 0.5%float).
Proof.
  assert (H0 : dict_of_info smith_id7 <> []) by discriminate.
  repeat split; [exact H0 | ].
  destruct (malformed_reply_degrades chatty_model john_smith_page
              (dict_of_info smith_id7) prose_reply H0 eq_refl eq_refl)
    as (outcome & H1 & _ & _ & _ & H2 & _).
  exists outcome. split; assumption.
Defined.

(** A body that is JSON but not an object: [5] decodes to a number, no
    [json.JSONDecodeError] is raised, the summary fails on the number and
    validation returns null. *)
Lemma validate_non_object_reply :
  llm_ainvoke number_model
    (validation_request john_smith_page (dict_of_info smith_id7))
  = Content "5"
  /\ json_loads number_model (json_str_of (PyStr.strip "5"))
     = Decoded (JNum 5%float)
  /\ dict_of_info smith_id7 <> []
  /\ _ai_validate_extracted_data number_model true john_smith_page
       (dict_of_info smith_id7) = None.
Proof. repeat split. discriminate. Qed.

(** A body on which [json.loads] raises another exception than
    [json.JSONDecodeError]: the handler of the whole function returns null. *)
Lemma validate_decoding_raises (w : World) (text : string)
    (patient_info : dict) (content msg : string) :
  llm_ainvoke w (validation_request text patient_info) = Content content ->
  json_loads w (json_str_of (PyStr.strip content)) = DecodingRaises msg ->
  _ai_validate_extracted_data w true text patient_info = None.
Proof.
  intros Hllm Hdec. unfold _ai_validate_extracted_data.
  destruct patient_info as [|kv rest]; [reflexivity|].
  cbn [negb orb]. unfold decode_judgment. now rewrite Hllm, Hdec.
Qed.

(** *** When validation returns null *)

Lemma apply_corrections_shaped (d results : dict) (patient_info : dict) :
  dict_get_default d "validation_results" (JObj []) = JObj results ->
  forall fields corrected_info applied,
    entries_shaped results fields = true ->
    exists out,
      apply_corrections (JObj d) patient_info fields corrected_info applied
      = Ok out.
Proof.
  intros Hres fields.
  induction fields as [|f rest IH]; intros ci ap Hshape.
  - eexists; reflexivity.
  - cbn [entries_shaped forallb] in Hshape.
    apply andb_true_iff in Hshape as [Hf Hrest].
    cbn [apply_corrections json_get exc_bind]. rewrite Hres.
    cbn [json_get exc_bind].
    destruct (dict_get_default results f (JObj [])) as [| | | | |entry];
      try discriminate.
    cbn [json_get exc_bind].
    destruct (truthy _ && _); cbn [exc_bind]; now apply IH.
Qed.

Lemma summarize_shaped (v : json) (patient_info : dict) :
  judgment_shaped v = true -> exists outcome, summarize v patient_info = Ok outcome.
Proof.
  unfold judgment_shaped, summarize. destruct v as [| | | | |d]; try discriminate.
  destruct (dict_get_default d "validation_results" (JObj [])) as [| | | | |rs] eqn:Hres;
    try discriminate.
  intros Hshape.
  destruct (apply_corrections_shaped d rs patient_info Hres validated_fields
              patient_info [] Hshape) as [out Hout].
  cbn [json_get exc_bind]. rewrite Hout. cbn [exc_bind]. eexists; reflexivity.
Qed.

Lemma dict_of_info_nonempty (p : PatientInfo) : dict_of_info p <> [].
Proof. discriminate. Qed.

(** C8, as the code has it: validation returns null on the grounds of its
    input, that is whatever the reasoning service answers, exactly when the
    capability is disabled or the candidate dictionary has no key at all; the
    candidate built from a PatientInfo always has its three keys, so null
    fields alone never make validation return null. *)
Theorem validation_null_on_input (enable_ai : bool) (text : string)
    (candidate : dict) :
  ((forall w : World,
      _ai_validate_extracted_data w enable_ai text candidate = None)
   <-> enable_ai = false \/ candidate = [])
  /\ (forall p : PatientInfo, dict_of_info p <> []).
Proof.
  split; [|apply dict_of_info_nonempty].
  split.
  - intros Hnull. specialize (Hnull nothing_found).
    unfold _ai_validate_extracted_data in Hnull.
    destruct enable_ai; [|now left].
    destruct candidate as [|kv rest]; [now right|].
    exfalso. cbn [negb orb] in Hnull.
    change (llm_ainvoke nothing_found
              (validation_request text (kv :: rest)))
      with (Content "{}") in Hnull.
    cbv beta iota zeta in Hnull.
    change (decode_judgment nothing_found (PyStr.strip "{}"))
      with (Ok (JObj [])) in Hnull.
    cbn [exc_bind] in Hnull.
    destruct (summarize_shaped (JObj []) (kv :: rest) eq_refl) as [o Ho].
    rewrite Ho in Hnull. discriminate.
  - intros [-> | ->] w; unfold _ai_validate_extracted_data.
    + reflexivity.
    + now rewrite orb_true_r.
Qed.

(** With the capability enabled, a candidate whose three fields are all null
    is sent to the reasoning service and validated. *)
Lemma all_null_fields_are_validated :
  first_name no_fields = None /\ last_name no_fields = None
  /\ date_of_birth no_fields = None
  /\ _ai_validate_extracted_data nothing_found true "Referral form"
       (dict_of_info no_fields) <> None.
Proof. repeat split; discriminate. Qed.

(** ** The confidence after the validation step *)

Local Open Scope float_scope.

Lemma confidence_in_score_values (d : dict) (x : float) :
  _calculate_confidence d = Ok x -> In x score_values.
Proof.
  unfold _calculate_confidence.
  destruct d as [|kv rest]; [intros [= <-]; vm_compute; tauto|].
  set (info := kv :: rest).
  destruct (truthy (dict_get info "first_name"));
    destruct (truthy (dict_get info "last_name"));
    cbn [exc_bind];
    try (destruct (py_lower (dict_get info "last_name")) as [lowered|];
         cbn [exc_bind]; [destruct (negb (artifact_search lowered))|discriminate]);
    destruct (truthy (dict_get info "date_of_birth"));
    intros [= <-]; vm_compute; tauto.
Qed.

Lemma py_max_not_below (a b : float) :
  In a score_values -> In b score_values -> (b <=? py_max a b) = true.
Proof.
  intros Ha Hb; score_cases Ha; score_cases Hb; reflexivity.
Qed.

(** When validation returns a result whose corrected fields the scorer
    accepts, the candidate after the validation step is the corrected one and
    its confidence is the larger of the rubric confidence of the corrected
    fields and the rubric confidence of the fields before validation; it is
    never below the latter. *)
Theorem validation_raises_confidence (w : World) (text : string)
    (ocr_result : dict) (ocr_method : string) (c : Candidate)
    (outcome : ValidationOutcome) (corrected_confidence : float) :
  _calculate_confidence ocr_result = Ok (final_confidence c) ->
  _ai_validate_extracted_data w true text ocr_result = Some outcome ->
  _calculate_confidence (corrected_patient_info outcome) = Ok corrected_confidence ->
  exists c',
    validation_stage w true text ocr_result ocr_method c = Ok c'
    /\ final_result c' = corrected_patient_info outcome
    /\ final_confidence c' = py_max corrected_confidence (final_confidence c)
    /\ (final_confidence c <=? final_confidence c') = true.
Proof.
  intros Hpre Hval Hcorr.
  unfold validation_stage. rewrite Hval, Hcorr. cbn [exc_bind].
  eexists; split; [reflexivity|].
  cbn [final_result final_confidence]. repeat split.
  apply py_max_not_below; eapply confidence_in_score_values; eassumption.
Qed.

Lemma validation_raises_confidence_witness :
  _calculate_confidence (dict_of_info smith_id7)
  = Ok (final_confidence smith_id7_extracted)
  /\ (exists outcome corrected_confidence,
        _ai_validate_extracted_data correcting_model true smith_id7_page
          (dict_of_info smith_id7) = Some outcome
        /\ _calculate_confidence (corrected_patient_info outcome)
           = Ok corrected_confidence
        /\ exists c',
             validation_stage correcting_model true smith_id7_page
               (dict_of_info smith_id7) "pdfplumber" smith_id7_extracted = Ok c'
             /\ final_confidence c' = 0.4 + 0.4 + 0.1
             /\ (final_confidence smith_id7_extracted <=? final_confidence c')
                = true).
Proof.
  split; [reflexivity|].
  destruct (_ai_validate_extracted_data correcting_model true smith_id7_page
              (dict_of_info smith_id7)) as [outcome|] eqn:Hval;
    [|discriminate].
  exists outcome, (0.4 + 0.4 + 0.1).
  assert (Hcorr : _calculate_confidence (corrected_patient_info outcome)
                  = Ok (0.4 + 0.4 + 0.1))
    by (injection Hval as <-; reflexivity).
  repeat split; trivial.
  destruct (validation_raises_confidence correcting_model smith_id7_page
              (dict_of_info smith_id7) "pdfplumber" smith_id7_extracted outcome
              (0.4 + 0.4 + 0.1) eq_refl Hval Hcorr)
    as (c' & Hc & _ & Hconf & Hle).
  exists c'. repeat split; trivial.
Defined.

(** C2, the run that shows the defect: the patterns find both names, whose
    rubric confidence is 0.4 + 0.4 + 0.1; validation is enabled and returns a
    result, in which the validator replaced the last name by the number 123;
    the scorer raises an AttributeError on the corrected fields, outside the
    handlers of the AI steps, so the validation step yields no confidence at
    all and the run is reported as a failure with confidence 0.0, below the
    confidence before validation. *)
Theorem numeric_correction_fails_the_run :
  _extract_text_from_pdf numeric_correction_model []
  = Ok (("Patient Name: John Smith" ++ nl)%string, "pdfplumber")
  /\ extracted_info numeric_correction_model
       ("Patient Name: John Smith" ++ nl)%string = john_smith_undated
  /\ _calculate_confidence (dict_of_info john_smith_undated)
     = Ok (0.4 + 0.4 + 0.1)
  /\ (exists outcome,
        _ai_validate_extracted_data numeric_correction_model true
          ("Patient Name: John Smith" ++ nl)%string
          (dict_of_info john_smith_undated) = Some outcome
        /\ dict_get (corrected_patient_info outcome) "last_name" = JNum 123
        /\ _calculate_confidence (corrected_patient_info outcome)
           = Raise AttributeError)
  /\ validation_stage numeric_correction_model true
       ("Patient Name: John Smith" ++ nl)%string
       (dict_of_info john_smith_undated) "pdfplumber"
       (extracted_candidate (dict_of_info john_smith_undated) "pdfplumber"
          (0.4 + 0.4 + 0.1))
     = Raise AttributeError
  /\ snd (pipeline numeric_correction_model true [] None) = Raise AttributeError
  /\ process_document numeric_correction_model true noon [] None = failure noon
  /\ (confidence_score (process_document numeric_correction_model true noon []
                          None)
      <? 0.4 + 0.4 + 0.1) = true.
Proof.
  do 3 (split; [reflexivity|]).
  split; [eexists; repeat split|].
  repeat split.
Qed.

Local Close Scope float_scope.

(** ** Order of the escalation *)

Lemma escalation_stage_shape (w : World) (enable_ai : bool) (file_content : bytes)
    (text : string) (c : Candidate) :
  escalation_shape (fst (escalation_stage w enable_ai file_content text c)).
Proof.
  unfold escalation_stage, escalation_shape, with_steps.
  destruct (data_quality_score c) as [q|]; [|now left].
  destruct (py_lt q 0.7%float) as [[|]|] eqn:H7; try now left.
  right. exists q. split; [exact H7|].
  destruct (improves (_ai_text_analysis w enable_ai text) c) as [[better|]|];
    cbn [fst app]; auto.
  destruct (py_lt q 0.6%float) as [[|]|] eqn:H6; cbn [fst app]; auto.
  right; right. split; [reflexivity|].
  destruct (improves (_ai_vision_analysis w enable_ai file_content) c)
    as [[better|]|]; cbn [fst app]; auto.
Qed.

Lemma steps_attempted_shape (w : World) (enable_ai : bool) (file_content : bytes)
    (use_ai : option bool) :
  steps_attempted w enable_ai file_content use_ai = []
  \/ exists rest,
       steps_attempted w enable_ai file_content use_ai = Validation :: rest
       /\ escalation_shape rest.
Proof.
  unfold steps_attempted, pipeline, with_steps.
  destruct (_extract_text_from_pdf w file_content) as [[text ocr_method]|];
    [|now left].
  destruct (extract_patient_name_ocr w text) as [first last].
  destruct (_calculate_confidence _) as [confidence|]; [|now left].
  destruct (_ && _); [|now left].
  right.
  destruct (validation_stage _ _ _ _ _ _) as [c'|]; cbn [fst app].
  - eexists; split; [reflexivity|]. apply escalation_stage_shape.
  - exists []. split; [reflexivity|now left].
Qed.

Lemma shape_kinds_distinct (rest : list step) :
  escalation_shape rest -> NoDup (map kind_of (Validation :: rest)).
Proof.
  intros [-> |(q & _ & [-> | [-> |(_ & [-> | ->])]])]; cbn [map kind_of];
    repeat (constructor; [cbn [In]; intuition discriminate|]); constructor.
Qed.

(** C3: in every run, each step of the escalation (the validation of the
    extracted fields, the text reanalysis, the vision reanalysis, and the
    re-validation that follows an adopted reanalysis) is attempted at most
    once; the text reanalysis is attempted only right after the validation
    step and with a quality below 0.7; the vision reanalysis is attempted only
    right after the text reanalysis, with the same quality value, which is
    below 0.7 and below 0.6. *)
Theorem escalation_order (w : World) (enable_ai : bool) (file_content : bytes)
    (use_ai : option bool) :
  NoDup (map kind_of (steps_attempted w enable_ai file_content use_ai))
  /\ (forall q,
        In (TextReanalysis q) (steps_attempted w enable_ai file_content use_ai) ->
        py_lt q 0.7%float = Ok true
        /\ exists after,
             steps_attempted w enable_ai file_content use_ai
             = Validation :: TextReanalysis q :: after)
  /\ (forall q,
        In (VisionReanalysis q) (steps_attempted w enable_ai file_content use_ai) ->
        py_lt q 0.7%float = Ok true /\ py_lt q 0.6%float = Ok true
        /\ exists after,
             steps_attempted w enable_ai file_content use_ai
             = Validation :: TextReanalysis q :: VisionReanalysis q :: after).
Proof.
  destruct (steps_attempted_shape w enable_ai file_content use_ai)
    as [-> |(rest & -> & Hshape)].
  { split; [constructor|]. split; intros q []. }
  split; [now apply shape_kinds_distinct|].
  destruct Hshape as [-> |(q0 & H7 & [-> | [-> |(H6 & [-> | ->])]])];
    split; intros q Hin; cbn [In] in Hin;
    repeat match goal with
           | H : _ \/ _ |- _ => destruct H
           | H : False |- _ => destruct H
           | H : Validation = _ |- _ => discriminate H
           | H : TextRevalidation = _ |- _ => discriminate H
           | H : VisionRevalidation = _ |- _ => discriminate H
           | H : TextReanalysis _ = VisionReanalysis _ |- _ => discriminate H
           | H : VisionReanalysis _ = TextReanalysis _ |- _ => discriminate H
           | H : TextReanalysis _ = TextReanalysis _ |- _ => injection H as <-
           | H : VisionReanalysis _ = VisionReanalysis _ |- _ => injection H as <-
           end;
    repeat split; trivial; eexists; reflexivity.
Qed.

(** The validation engine itself is called at most twice in a run: for the
    extracted fields, and once more for the fields of an adopted reanalysis. *)
Lemma validator_called_at_most_twice (w : World) (enable_ai : bool)
    (file_content : bytes) (use_ai : option bool) :
  List.length
    (filter calls_validator (steps_attempted w enable_ai file_content use_ai)) <= 2.
Proof.
  destruct (steps_attempted_shape w enable_ai file_content use_ai)
    as [-> |(rest & -> & [-> |(q & _ & [-> | [-> |(_ & [-> | ->])]])])];
    cbn; lia.
Qed.

Lemma validator_called_twice_example :
  steps_attempted analysis_helps true [] None
  = [Validation; TextReanalysis (JNum 0.5%float); TextRevalidation].
Proof. reflexivity. Qed.

Lemma vision_after_text_example :
  steps_attempted nothing_found true [] None
  = [Validation; TextReanalysis (JNum 0.0%float); VisionReanalysis (JNum 0.0%float)].
Proof. reflexivity. Qed.

(** ** The result of [process_document] *)

Lemma pipeline_text (w : World) (enable_ai : bool) (file_content : bytes)
    (use_ai : option bool) (text : string) (c : Candidate) :
  snd (pipeline w enable_ai file_content use_ai) = Ok (text, c) ->
  exists method, _extract_text_from_pdf w file_content = Ok (text, method).
Proof.
  unfold pipeline, with_steps.
  destruct (_extract_text_from_pdf w file_content) as [[t ocr_method]|];
    [|discriminate].
  destruct (extract_patient_name_ocr w t) as [first last].
  destruct (_calculate_confidence _) as [confidence|]; [|discriminate].
  destruct (_ && _).
  - destruct (validation_stage _ _ _ _ _ _) as [c'|]; [|discriminate].
    cbn [snd].
    destruct (snd (escalation_stage w enable_ai file_content t c')) as [c''|];
      [|discriminate].
    intros [= <- _]. now exists ocr_method.
  - intros [= <- _]. now exists ocr_method.
Qed.

Lemma take_is_prefix (n : nat) (s : string) :
  n <= String.length s ->
  exists tail, s = (PyStr.take n s ++ tail)%string /\ String.length (PyStr.take n s) = n.
Proof.
  unfold PyStr.take. revert s.
  induction n as [|n IH]; intros s Hlen.
  - exists s. now destruct s.
  - destruct s as [|ch s]; cbn [String.length] in Hlen; [lia|].
    destruct (IH s) as (tail & Hs & Hl); [lia|].
    exists tail. cbn [substring append String.length]. split; congruence.
Qed.

(** C10: in every successful result the text preview is the extracted text
    itself when that text has at most 500 characters, and otherwise its first
    500 characters followed by "...". *)
Theorem preview_of_success (w : World) (enable_ai : bool) (clock : Clock)
    (file_content : bytes) (use_ai : option bool) :
  success (process_document w enable_ai clock file_content use_ai) = true ->
  exists text method preview,
    _extract_text_from_pdf w file_content = Ok (text, method)
    /\ extracted_text (process_document w enable_ai clock file_content use_ai)
       = Some preview
    /\ (String.length text <= 500 -> preview = text)
    /\ (500 < String.length text ->
        exists head tail,
          text = (head ++ tail)%string /\ String.length head = 500
          /\ preview = (head ++ "...")%string).
Proof.
  unfold process_document, respond.
  destruct (snd (pipeline w enable_ai file_content use_ai)) as [[text c]|] eqn:Hp;
    [|discriminate].
  intros _. destruct (pipeline_text _ _ _ _ _ _ Hp) as [method Hx].
  exists text, method, (text_preview text).
  cbn [extracted_text]. repeat split; trivial; unfold text_preview.
  - intros Hle. apply Nat.ltb_ge in Hle. now rewrite Hle.
  - intros Hlt. destruct (take_is_prefix 500 text) as (tail & Ht & Hl); [lia|].
    apply Nat.ltb_lt in Hlt. rewrite Hlt.
    now exists (PyStr.take 500 text), tail.
Qed.

Lemma preview_of_success_witness :
  success (process_document chatty_model true noon [] (Some false)) = true
  /\ exists text method preview,
       _extract_text_from_pdf chatty_model [] = Ok (text, method)
       /\ extracted_text (process_document chatty_model true noon [] (Some false))
          = Some preview
       /\ (String.length text <= 500 -> preview = text).
Proof.
  split; [reflexivity|].
  destruct (preview_of_success chatty_model true noon [] (Some false) eq_refl)
    as (text & method & preview & H1 & H2 & H3 & _).
  now exists text, method, preview.
Defined.

(** *** Failure of the extraction, and failures after it *)

Lemma extraction_failure_result (w : World) (enable_ai : bool) (clock : Clock)
    (file_content : bytes) (use_ai : option bool) (e : exn) :
  _extract_text_from_pdf w file_content = Raise e ->
  process_document w enable_ai clock file_content use_ai = failure clock.
Proof.
  intros H. unfold process_document, pipeline. now rewrite H.
Qed.

Lemma unreadable_bytes_fail (clock : Clock) :
  process_document unreadable true clock [] None = failure clock.
Proof. reflexivity. Qed.

(** Without the AI stages, a run fails exactly when the extraction fails. *)
Lemma success_without_ai (w : World) (enable_ai : bool) (clock : Clock)
    (file_content : bytes) :
  success (process_document w enable_ai clock file_content (Some false)) = true
  <-> exists text method, _extract_text_from_pdf w file_content = Ok (text, method).
Proof.
  unfold process_document, pipeline.
  destruct (_extract_text_from_pdf w file_content) as [[text method]|].
  - destruct (extract_patient_name_ocr w text) as [first last].
    rewrite confidence_of_info. cbn [andb snd respond success].
    split; [now exists text, method|reflexivity].
  - cbn. split; [discriminate|intros (t & m & H); discriminate H].
Qed.

(** C7, the run that shows the defect: the text is extracted by the first
    backend, the validator's judgment carries a null quality score, the
    comparison with 0.7 raises a TypeError, and the run is reported as a
    failure of the whole document. *)
Theorem null_quality_score_fails_the_run :
  _extract_text_from_pdf null_quality_model [] = Ok ((john_smith_page ++ nl)%string, "pdfplumber")
  /\ json_loads null_quality_model (json_str_of (PyStr.strip null_quality_reply))
     = Decoded null_quality_judgment
  /\ snd (pipeline null_quality_model true [] None) = Raise TypeError
  /\ process_document null_quality_model true noon [] None = failure noon.
Proof. repeat split. Qed.

(** ** TextExtractionCascade *)

(** The first backend wins when it reads every page and finds text. *)
Lemma cascade_first_backend (w : World) (file_content : bytes) (text : string) :
  read_pages "" (pdfplumber_pages w file_content) = (text, false) ->
  PyStr.nonempty (PyStr.strip text) = true ->
  _extract_text_from_pdf w file_content = Ok (text, "pdfplumber").
Proof.
  intros H Hne. unfold _extract_text_from_pdf. rewrite H. cbn [negb andb].
  now rewrite Hne.
Qed.

(** When the first backend leaves no text behind, the second wins with its
    own text when it reads every page and finds text. *)
Lemma cascade_second_backend (w : World) (file_content : bytes)
    (failed : bool) (text : string) :
  read_pages "" (pdfplumber_pages w file_content) = ("", failed) ->
  read_pages "" (pypdf2_pages w file_content) = (text, false) ->
  PyStr.nonempty (PyStr.strip text) = true ->
  _extract_text_from_pdf w file_content = Ok (text, "pypdf2").
Proof.
  intros H1 H2 Hne. unfold _extract_text_from_pdf. rewrite H1.
  replace (negb failed && PyStr.nonempty (PyStr.strip "")) with false
    by now destruct failed.
  rewrite H2. cbn [negb andb]. now rewrite Hne.
Qed.

(** When the first two backends leave no text behind, the OCR text decides:
    it is returned when it is not blank, and the extraction fails when it is. *)
Lemma cascade_third_backend (w : World) (file_content : bytes)
    (failed1 failed2 : bool) (text : string) :
  read_pages "" (pdfplumber_pages w file_content) = ("", failed1) ->
  read_pages "" (pypdf2_pages w file_content) = ("", failed2) ->
  _extract_text_with_ocr w file_content = OcrDone text ->
  _extract_text_from_pdf w file_content
  = if PyStr.nonempty (PyStr.strip text) then Ok (text, "tesseract")
    else Raise (ValueError extraction_failed).
Proof.
  intros H1 H2 H3. unfold _extract_text_from_pdf. rewrite H1.
  replace (negb failed1 && PyStr.nonempty (PyStr.strip "")) with false
    by now destruct failed1.
  rewrite H2.
  replace (negb failed2 && PyStr.nonempty (PyStr.strip "")) with false
    by now destruct failed2.
  rewrite H3. now destruct (PyStr.nonempty (PyStr.strip text)).
Qed.

(** When no backend finds any text, the extraction fails, whether the OCR
    path returns blank text or raises. *)
Lemma cascade_no_text (w : World) (file_content : bytes)
    (failed1 failed2 : bool) :
  read_pages "" (pdfplumber_pages w file_content) = ("", failed1) ->
  read_pages "" (pypdf2_pages w file_content) = ("", failed2) ->
  (forall text, _extract_text_with_ocr w file_content = OcrDone text ->
                PyStr.nonempty (PyStr.strip text) = false) ->
  _extract_text_from_pdf w file_content = Raise (ValueError extraction_failed)
  \/ _extract_text_from_pdf w file_content = Raise (ValueError tesseract_hint).
Proof.
  intros H1 H2 H3. unfold _extract_text_from_pdf. rewrite H1.
  replace (negb failed1 && PyStr.nonempty (PyStr.strip "")) with false
    by now destruct failed1.
  rewrite H2.
  replace (negb failed2 && PyStr.nonempty (PyStr.strip "")) with false
    by now destruct failed2.
  destruct (_extract_text_with_ocr w file_content) as [text|msg].
  - rewrite (H3 text eq_refl). now left.
  - destruct (PyStr.contains "tesseract" (PyStr.lower msg)); [now right|now left].
Qed.

(** A failure of the OCR engine that names tesseract gives the installation
    hint, whatever the other backends did short of succeeding. *)
Lemma cascade_engine_missing (w : World) (file_content : bytes) (msg : string) :
  (forall text, _extract_text_from_pdf w file_content <> Ok (text, "pdfplumber")) ->
  (forall text, _extract_text_from_pdf w file_content <> Ok (text, "pypdf2")) ->
  _extract_text_with_ocr w file_content = OcrRaised msg ->
  PyStr.contains "tesseract" (PyStr.lower msg) = true ->
  _extract_text_from_pdf w file_content = Raise (ValueError tesseract_hint).
Proof.
  unfold _extract_text_from_pdf.
  destruct (read_pages "" (pdfplumber_pages w file_content)) as [t1 f1].
  destruct (negb f1 && PyStr.nonempty (PyStr.strip t1));
    [intros H; now destruct (H t1)|].
  destruct (read_pages t1 (pypdf2_pages w file_content)) as [t2 f2].
  destruct (negb f2 && PyStr.nonempty (PyStr.strip t2));
    [intros _ H; now destruct (H t2)|].
  intros _ _ -> ->. reflexivity.
Qed.

Lemma engine_missing_example :
  _extract_text_from_pdf scanned_without_engine [] = Raise (ValueError tesseract_hint).
Proof. reflexivity. Qed.

(** C4, the run that shows the defect: [pdfplumber] reads the first page and
    fails on the second, [PyPDF2] reads both pages; the cascade reports the
    method "pypdf2" but returns the first page twice, once from the failed
    attempt, and not the text [PyPDF2] extracted. *)
Theorem failed_attempt_text_is_kept :
  read_pages "" (pdfplumber_pages second_page_damaged [])
  = (("Patient Name: John Smith" ++ nl)%string, true)
  /\ read_pages "" (pypdf2_pages second_page_damaged [])
     = (("Patient Name: John Smith" ++ nl ++ "DOB: 01/15/1980" ++ nl)%string, false)
  /\ _extract_text_from_pdf second_page_damaged []
     = Ok (("Patient Name: John Smith" ++ nl ++ "Patient Name: John Smith" ++ nl
             ++ "DOB: 01/15/1980" ++ nl)%string, "pypdf2")
  /\ (forall method,
        _extract_text_from_pdf second_page_damaged []
        <> Ok (fst (read_pages "" (pypdf2_pages second_page_damaged [])), method)).
Proof.
  repeat split. intros method H. discriminate H.
Qed.

(** The accumulated text of two failed attempts can also be returned as it
    is, under the method "none": [pdfplumber] fails after the first page,
    [PyPDF2] cannot open the file and the OCR path fails on rendering. *)
Lemma failed_attempt_text_returned_alone :
  _extract_text_from_pdf
    {| pdfplumber_pages := fun _ => [PageText (Some "Patient Name: John Smith");
                                     PageFails "Unexpected EOF"];
       pypdf2_pages := fun _ => [PageFails "EOF marker not found"];
       ocr_page_runs := fun _ => [OcrFails "Unexpected EOF"];
       pdf_to_base64_image := fun _ => Raise (ExternalError "Unexpected EOF");
       re_findall := fun _ _ => [];
       extract_patient_name_ocr := fun _ => john_smith;
       llm_ainvoke := no_llm;
       json_loads := decode_with [] |} []
  = Ok (("Patient Name: John Smith" ++ nl)%string, "none").
Proof. reflexivity. Qed.

(** ** The reported confidence over the whole run *)

Local Open Scope float_scope.

Lemma score_values_le_refl (a : float) : In a score_values -> (a <=? a) = true.
Proof.
  intros H; score_cases H; reflexivity.
Qed.

Lemma score_values_lt_le (a b : float) :
  In a score_values -> In b score_values -> (a <? b) = true -> (a <=? b) = true.
Proof.
  intros Ha Hb; score_cases Ha; score_cases Hb; vm_compute; auto.
Qed.

Lemma score_values_le_trans (a b c : float) :
  In a score_values -> In b score_values -> In c score_values ->
  (a <=? b) = true -> (b <=? c) = true -> (a <=? c) = true.
Proof.
  intros Ha Hb Hc; score_cases Ha; score_cases Hb; score_cases Hc;
    vm_compute; auto.
Qed.

Lemma py_max_in_score_values (a b : float) :
  In a score_values -> In b score_values -> In (py_max a b) score_values.
Proof.
  intros Ha Hb. unfold py_max. now destruct (a <? b).
Qed.

Lemma improves_better (result : option dict) (c : Candidate) (better : dict) :
  improves result c = Ok (Some better) ->
  exists conf,
    _calculate_confidence better = Ok conf
    /\ (final_confidence c <? conf) = true.
Proof.
  unfold improves. destruct result as [r|]; [|discriminate].
  destruct (truthy (JObj r)); [|discriminate].
  destruct (_calculate_confidence r) as [conf|] eqn:Hconf; [|discriminate].
  cbn [exc_bind]. destruct (final_confidence c <? conf) eqn:Hlt; [|discriminate].
  intros [= <-]. now exists conf.
Qed.

Lemma adopt_confidence (w : World) (enable_ai : bool) (text : string)
    (better : dict) (method : string) (c c' : Candidate) (conf : float) :
  _calculate_confidence better = Ok conf ->
  adopt w enable_ai text better method c = Ok c' ->
  final_confidence c' = conf.
Proof.
  unfold adopt. intros ->. cbn [exc_bind]. now intros [= <-].
Qed.

Lemma escalation_keeps_or_raises (w : World) (enable_ai : bool)
    (file_content : bytes) (text : string) (c c' : Candidate) :
  In (final_confidence c) score_values ->
  snd (escalation_stage w enable_ai file_content text c) = Ok c' ->
  In (final_confidence c') score_values
  /\ (final_confidence c <=? final_confidence c') = true.
Proof.
  intros Hin. unfold escalation_stage, with_steps.
  assert (Hkeep : In (final_confidence c) score_values
                  /\ (final_confidence c <=? final_confidence c) = true)
    by (split; [assumption|now apply score_values_le_refl]).
  assert (Hadopt : forall result method,
             match improves result c with
             | Ok (Some better) =>
                 forall c', adopt w enable_ai text better method c = Ok c' ->
                 In (final_confidence c') score_values
                 /\ (final_confidence c <=? final_confidence c') = true
             | _ => True
             end).
  { intros result method.
    destruct (improves result c) as [[better|]|] eqn:Hi; trivial.
    intros d Hd. destruct (improves_better _ _ _ Hi) as (conf & Hconf & Hlt).
    rewrite (adopt_confidence _ _ _ _ _ _ _ _ Hconf Hd).
    pose proof (confidence_in_score_values _ _ Hconf) as Hc.
    split; [assumption|now apply score_values_lt_le]. }
  destruct (data_quality_score c) as [q|]; [|discriminate].
  destruct (py_lt q 0.7) as [[|]|]; cbn [snd]; try discriminate;
    [|now intros [= <-]].
  pose proof (Hadopt (_ai_text_analysis w enable_ai text) "ai_text_enhanced"%string)
    as Htext.
  destruct (improves (_ai_text_analysis w enable_ai text) c) as [[better|]|];
    cbn [snd]; try discriminate; [now apply Htext|].
  destruct (py_lt q 0.6) as [[|]|]; cbn [snd]; try discriminate;
    [|now intros [= <-]].
  pose proof (Hadopt (_ai_vision_analysis w enable_ai file_content)
                     "ai_vision_enhanced"%string) as Hvision.
  destruct (improves (_ai_vision_analysis w enable_ai file_content) c)
    as [[better|]|]; cbn [snd]; try discriminate;
    [now apply Hvision|now intros [= <-]].
Qed.

(** Over a whole successful run, the reported confidence is never below the
    rubric confidence of the fields the patterns extracted. *)
Lemma reported_confidence_not_below_extracted (w : World) (enable_ai : bool)
    (clock : Clock) (file_content : bytes) (use_ai : option bool)
    (text method : string) :
  _extract_text_from_pdf w file_content = Ok (text, method) ->
  success (process_document w enable_ai clock file_content use_ai) = true ->
  (rubric {| first_name := fst (extract_patient_name_ocr w text);
             last_name := snd (extract_patient_name_ocr w text);
             date_of_birth := _extract_date_of_birth w text |}
   <=? confidence_score (process_document w enable_ai clock file_content use_ai))
  = true.
Proof.
  intros Hx. unfold process_document, pipeline, with_steps. rewrite Hx.
  destruct (extract_patient_name_ocr w text) as [first last]; cbn [fst snd].
  set (p := {| first_name := first; last_name := last;
               date_of_birth := _extract_date_of_birth w text |}).
  rewrite confidence_of_info.
  pose proof (rubric_in_score_values p) as Hp.
  destruct (_ && _); cbn [snd respond confidence_score];
    [|intros _; now apply score_values_le_refl].
  unfold validation_stage.
  set (c := extracted_candidate (dict_of_info p) method (rubric p)).
  assert (Hstage : forall c1,
             In (final_confidence c1) score_values ->
             (rubric p <=? final_confidence c1) = true ->
             success (respond clock
                        (do c'' <- snd (escalation_stage w enable_ai file_content
                                                         text c1);
                         Ok (text, c''))) = true ->
             (rubric p
              <=? confidence_score
                    (respond clock
                       (do c'' <- snd (escalation_stage w enable_ai file_content
                                                        text c1);
                        Ok (text, c'')))) = true).
  { intros c1 Hin Hle.
    destruct (snd (escalation_stage w enable_ai file_content text c1))
      as [c2|] eqn:He; cbn [exc_bind respond success confidence_score];
      [|discriminate].
    intros _. destruct (escalation_keeps_or_raises _ _ _ _ _ _ Hin He) as [H2 Hle2].
    now apply (score_values_le_trans _ (final_confidence c1)). }
  destruct (_ai_validate_extracted_data w enable_ai text (dict_of_info p))
    as [outcome|].
  - destruct (_calculate_confidence (corrected_patient_info outcome))
      as [cc|] eqn:Hcc; cbn [exc_bind snd]; [|discriminate].
    pose proof (confidence_in_score_values _ _ Hcc) as Hc.
    apply Hstage; cbn [final_confidence c extracted_candidate].
    + now apply py_max_in_score_values.
    + now apply py_max_not_below.
  - cbn [snd]. apply Hstage; cbn [final_confidence c extracted_candidate];
      [assumption|now apply score_values_le_refl].
Qed.

Local Close Scope float_scope.

(** * Further properties of the processor *)

(** ** What the cascade returns and raises *)

(** The cascade never returns blank text, and the method it reports is one of
    the three backends or "none". *)
Theorem cascade_text_is_not_blank (w : World) (file_content : bytes)
    (text method : string) :
  _extract_text_from_pdf w file_content = Ok (text, method) ->
  PyStr.nonempty (PyStr.strip text) = true /\ In method cascade_methods.
Proof.
  unfold _extract_text_from_pdf, cascade_methods.
  destruct (read_pages "" (pdfplumber_pages w file_content)) as [t1 f1].
  destruct (negb f1 && PyStr.nonempty (PyStr.strip t1)) eqn:H1.
  { intros [= <- <-]. apply andb_true_iff in H1. cbn [In]. tauto. }
  destruct (read_pages t1 (pypdf2_pages w file_content)) as [t2 f2].
  destruct (negb f2 && PyStr.nonempty (PyStr.strip t2)) eqn:H2.
  { intros [= <- <-]. apply andb_true_iff in H2. cbn [In]. tauto. }
  destruct (_extract_text_with_ocr w file_content) as [t3|msg].
  - destruct (PyStr.nonempty (PyStr.strip t3)) eqn:H3; cbn [negb].
    + intros [= <- <-]. cbn [In]. tauto.
    + discriminate.
  - destruct (PyStr.contains "tesseract" (PyStr.lower msg)); [discriminate|].
    destruct (PyStr.nonempty (PyStr.strip t2)) eqn:H3; cbn [negb]; [|discriminate].
    intros [= <- <-]. cbn [In]. tauto.
Qed.

Lemma cascade_text_is_not_blank_witness :
  _extract_text_from_pdf second_page_damaged []
  = Ok (("Patient Name: John Smith" ++ nl ++ "Patient Name: John Smith" ++ nl
          ++ "DOB: 01/15/1980" ++ nl)%string, "pypdf2")
  /\ In "pypdf2" cascade_methods.
Proof.
  split; [reflexivity|].
  exact (proj2 (cascade_text_is_not_blank second_page_damaged [] _ _ eq_refl)).
Defined.

(** The cascade raises nothing but a [ValueError] with one of its two
    messages, and the installation hint only after the OCR path raised with a
    message that names tesseract. *)
Theorem cascade_errors (w : World) (file_content : bytes) (e : exn) :
  _extract_text_from_pdf w file_content = Raise e ->
  e = ValueError extraction_failed
  \/ (e = ValueError tesseract_hint
      /\ exists msg,
           _extract_text_with_ocr w file_content = OcrRaised msg
           /\ PyStr.contains "tesseract" (PyStr.lower msg) = true).
Proof.
  unfold _extract_text_from_pdf.
  destruct (read_pages "" (pdfplumber_pages w file_content)) as [t1 f1].
  destruct (negb f1 && PyStr.nonempty (PyStr.strip t1)); [discriminate|].
  destruct (read_pages t1 (pypdf2_pages w file_content)) as [t2 f2].
  destruct (negb f2 && PyStr.nonempty (PyStr.strip t2)); [discriminate|].
  destruct (_extract_text_with_ocr w file_content) as [t3|msg].
  - destruct (PyStr.nonempty (PyStr.strip t3)); cbn [negb]; [discriminate|].
    intros [= <-]. now left.
  - destruct (PyStr.contains "tesseract" (PyStr.lower msg)) eqn:Ht.
    + intros [= <-]. right. split; [reflexivity|]. now exists msg.
    + destruct (PyStr.nonempty (PyStr.strip t2)); cbn [negb]; [discriminate|].
      intros [= <-]. now left.
Qed.

Lemma cascade_errors_witness :
  _extract_text_from_pdf scanned_without_engine [] = Raise (ValueError tesseract_hint)
  /\ (ValueError tesseract_hint = ValueError extraction_failed
      \/ (ValueError tesseract_hint = ValueError tesseract_hint
          /\ exists msg,
               _extract_text_with_ocr scanned_without_engine [] = OcrRaised msg
               /\ PyStr.contains "tesseract" (PyStr.lower msg) = true)).
Proof.
  split; [reflexivity|].
  exact (cascade_errors scanned_without_engine [] _ eq_refl).
Defined.

(** ** The OCR page loop *)

Lemma ocr_loop_blank_pages (pages : list ocr_event) :
  forallb blank_page pages = true ->
  forall page_num text, ocr_loop page_num text pages = OcrDone text.
Proof.
  induction pages as [|e rest IH]; intros Hb n text; [reflexivity|].
  cbn [forallb] in Hb. apply andb_true_iff in Hb as [He Hrest].
  destruct e as [t|msg]; [|discriminate].
  cbn [blank_page] in He. apply negb_true_iff in He.
  cbn [ocr_loop]. rewrite He. now apply IH.
Qed.

Lemma ocr_loop_skips_blank_pages (pages rest : list ocr_event) :
  forallb blank_page pages = true ->
  forall page_num text,
    ocr_loop page_num text (pages ++ rest)
    = ocr_loop (page_num + List.length pages) text rest.
Proof.
  induction pages as [|e pages IH]; intros Hb n text.
  - cbn [app List.length]. now rewrite Nat.add_0_r.
  - cbn [forallb] in Hb. apply andb_true_iff in Hb as [He Hrest].
    destruct e as [t|msg]; [|discriminate].
    cbn [blank_page] in He. apply negb_true_iff in He.
    cbn [app ocr_loop List.length]. rewrite He, (IH Hrest). f_equal. lia.
Qed.

(** A blank page adds nothing to the OCR text, and the label of a page is its
    position in the document, blank pages counted: when only one page has
    text, the OCR text is that page under the label of its position. *)
Theorem ocr_label_is_page_position (w : World) (file_content : bytes)
    (before after : list ocr_event) (page_text : string) :
  ocr_page_runs w file_content = before ++ Recognized page_text :: after ->
  forallb blank_page before = true ->
  forallb blank_page after = true ->
  PyStr.nonempty (PyStr.strip page_text) = true ->
  _extract_text_with_ocr w file_content
  = OcrDone ("Page " ++ PyStr.of_nat (List.length before + 1) ++ ":" ++ nl
             ++ page_text ++ nl ++ nl)%string.
Proof.
  intros Hruns Hb Ha Hne. unfold _extract_text_with_ocr. rewrite Hruns.
  rewrite (ocr_loop_skips_blank_pages _ _ Hb). cbn [ocr_loop Nat.add].
  rewrite Hne. now rewrite (ocr_loop_blank_pages _ Ha).
Qed.

(** A scanned document whose pages are all blank, and in which the two text
    backends find nothing, fails the extraction. *)
Theorem blank_scan_fails (w : World) (file_content : bytes)
    (failed1 failed2 : bool) :
  read_pages "" (pdfplumber_pages w file_content) = ("", failed1) ->
  read_pages "" (pypdf2_pages w file_content) = ("", failed2) ->
  forallb blank_page (ocr_page_runs w file_content) = true ->
  _extract_text_from_pdf w file_content = Raise (ValueError extraction_failed).
Proof.
  intros H1 H2 Hb.
  rewrite (cascade_third_backend w file_content failed1 failed2 "" H1 H2).
  - reflexivity.
  - unfold _extract_text_with_ocr. now apply ocr_loop_blank_pages.
Qed.

Lemma ocr_label_is_page_position_witness :
  ocr_page_runs middle_page_scan []
  = [Recognized " "] ++ Recognized "Patient Name: John Smith" :: [Recognized ""]
  /\ forallb blank_page [Recognized " "] = true
  /\ forallb blank_page [Recognized ""] = true
  /\ PyStr.nonempty (PyStr.strip "Patient Name: John Smith") = true
  /\ _extract_text_with_ocr middle_page_scan []
     = OcrDone ("Page 2:" ++ nl ++ "Patient Name: John Smith" ++ nl ++ nl)%string.
Proof.
  do 4 (split; [reflexivity|]).
  exact (ocr_label_is_page_position middle_page_scan [] [Recognized " "]
           [Recognized ""] "Patient Name: John Smith"
           eq_refl eq_refl eq_refl eq_refl).
Defined.

Lemma blank_scan_fails_witness :
  read_pages "" (pdfplumber_pages blank_scan []) = ("", false)
  /\ read_pages "" (pypdf2_pages blank_scan []) = ("", false)
  /\ forallb blank_page (ocr_page_runs blank_scan []) = true
  /\ _extract_text_from_pdf blank_scan [] = Raise (ValueError extraction_failed).
Proof.
  do 3 (split; [reflexivity|]).
  exact (blank_scan_fails blank_scan [] false false eq_refl eq_refl eq_refl).
Defined.

(** ** The date of birth *)

Lemma normalized_has_no_dash (s : string) :
  mentions "-" (normalize_separators s) = false.
Proof.
  induction s as [|c r IH]; [reflexivity|].
  cbn [normalize_separators mentions]. rewrite IH, orb_false_r.
  destruct (Ascii.eqb c "-") eqn:E; [reflexivity|exact E].
Qed.

Lemma dob_scan_origin (findall : string -> string -> list string)
    (text date_str : string) (patterns : list string) :
  dob_scan findall text patterns = Some date_str ->
  exists pattern m rest,
    In pattern patterns /\ findall pattern text = m :: rest
    /\ date_str = normalize_separators (PyStr.strip m)
    /\ _is_valid_date_format date_str = true.
Proof.
  induction patterns as [|pattern ps IH]; cbn [dob_scan]; [discriminate|].
  destruct (findall pattern text) as [|m ms] eqn:Hf.
  - intros H. destruct (IH H) as (p & m & r & Hin & Hm & Hd & Hv).
    exists p, m, r. cbn [In]. tauto.
  - destruct (_is_valid_date_format (normalize_separators (PyStr.strip m))) eqn:Hv.
    + intros [= <-]. exists pattern, m, ms. cbn [In]. tauto.
    + intros H. destruct (IH H) as (p & m' & r & Hin & Hm & Hd & Hv').
      exists p, m', r. cbn [In]. tauto.
Qed.

(** A date of birth the extractor returns is the first match of one of the
    date patterns, trimmed and with its dashes turned into slashes: it has no
    dash left and it passes the plausibility check. *)
Theorem extracted_dob_is_normalized (w : World) (text date_str : string) :
  _extract_date_of_birth w text = Some date_str ->
  mentions "-" date_str = false
  /\ plausible_date date_str
  /\ exists pattern m rest,
       In pattern dob_patterns
       /\ re_findall w pattern (PyStr.collapse_ws text) = m :: rest
       /\ date_str = normalize_separators (PyStr.strip m).
Proof.
  unfold _extract_date_of_birth. intros H.
  destruct (dob_scan_origin _ _ _ _ H) as (p & m & r & Hin & Hm & Hd & Hv).
  split; [subst date_str; apply normalized_has_no_dash|].
  split; [now apply valid_date_format_sound|].
  now exists p, m, r.
Qed.

Lemma extracted_dob_is_normalized_witness :
  _extract_date_of_birth dashed_date "DOB: 1980-01-15" = Some "1980/01/15"
  /\ mentions "-" "1980/01/15" = false
  /\ plausible_date "1980/01/15".
Proof.
  split; [reflexivity|].
  destruct (extracted_dob_is_normalized dashed_date "DOB: 1980-01-15"
              "1980/01/15" eq_refl) as (H1 & H2 & _).
  now split.
Defined.

(** Only the first match of each pattern is looked at: when the first match
    of every date pattern is implausible, no date of birth is returned,
    whatever the later matches are. *)
Theorem dob_first_match_decides (w : World) (text : string) :
  (forall pattern m rest,
     In pattern dob_patterns ->
     re_findall w pattern (PyStr.collapse_ws text) = m :: rest ->
     _is_valid_date_format (normalize_separators (PyStr.strip m)) = false) ->
  _extract_date_of_birth w text = None.
Proof.
  unfold _extract_date_of_birth.
  induction dob_patterns as [|pattern ps IH]; intros H; [reflexivity|].
  cbn [dob_scan].
  destruct (re_findall w pattern (PyStr.collapse_ws text)) as [|m ms] eqn:Hf.
  - apply IH. intros p m r Hin. apply H. now right.
  - rewrite (H pattern m ms (or_introl eq_refl) Hf).
    apply IH. intros p m' r Hin. apply H. now right.
Qed.

Lemma dob_first_match_decides_witness :
  (forall pattern m rest,
     In pattern dob_patterns ->
     re_findall impossible_date_first pattern
       (PyStr.collapse_ws "Seen 13/40/1990, DOB 01/15/1980") = m :: rest ->
     _is_valid_date_format (normalize_separators (PyStr.strip m)) = false)
  /\ _is_valid_date_format (normalize_separators (PyStr.strip "01/15/1980")) = true
  /\ _extract_date_of_birth impossible_date_first
       "Seen 13/40/1990, DOB 01/15/1980" = None.
Proof.
  assert (H : forall pattern m rest,
             In pattern dob_patterns ->
             re_findall impossible_date_first pattern
               (PyStr.collapse_ws "Seen 13/40/1990, DOB 01/15/1980") = m :: rest ->
             _is_valid_date_format (normalize_separators (PyStr.strip m)) = false)
    by (intros pattern m rest [<-|[<-|[<-|[<-|[<-|[]]]]]] Hm;
        try discriminate Hm; injection Hm as <- _; reflexivity).
  split; [exact H|]. split; [reflexivity|].
  exact (dob_first_match_decides impossible_date_first _ H).
Defined.

(** A date written day first with a day above 12 is rejected: when the first
    of the three fields is a number above 12 and not four characters long, the
    check fails, whatever the other fields are. *)
Theorem day_first_date_is_rejected (date_str f0 f1 f2 : string) (n : Z) :
  PyStr.split "/" date_str = [f0; f1; f2] ->
  py_int f0 = Ok n ->
  (12 < n)%Z ->
  String.length f0 <> 4 ->
  _is_valid_date_format date_str = false.
Proof.
  intros Hs H0 Hn Hlen.
  destruct (_is_valid_date_format date_str) eqn:Hv; [|reflexivity].
  apply valid_date_format_sound in Hv.
  destruct Hv as (g0 & g1 & g2 & n0 & n1 & n2 & Hs' & I0 & _ & _ & Hcase).
  rewrite Hs in Hs'. injection Hs' as <- <- <-.
  unfold is_integer_field in I0. rewrite H0 in I0. injection I0 as <-.
  unfold month_ok in Hcase.
  destruct Hcase as [(_ & Hm & _)|(Hl & _)]; [lia|contradiction].
Qed.

Lemma day_first_date_is_rejected_witness :
  PyStr.split "/" "25/12/1990" = ["25"; "12"; "1990"]
  /\ py_int "25" = Ok 25%Z
  /\ (12 < 25)%Z
  /\ String.length "25" <> 4
  /\ _is_valid_date_format "25/12/1990" = false.
Proof.
  assert (Hlen : String.length "25" <> 4) by discriminate.
  do 2 (split; [reflexivity|]). split; [lia|]. split; [exact Hlen|].
  exact (day_first_date_is_rejected "25/12/1990" "25" "12" "1990" 25
           eq_refl eq_refl eq_refl Hlen).
Defined.

(** ** The confidence of arbitrary candidates *)

Local Open Scope float_scope.

(** The scorer raises exactly when the last name is a truthy value that is
    not a string, and then an [AttributeError]; every score it returns lies
    between 0.0 and 1.0. *)
Theorem confidence_error_cases (candidate : dict) :
  (_calculate_confidence candidate = Raise AttributeError
   <-> truthy (dict_get candidate "last_name") = true
       /\ is_string (dict_get candidate "last_name") = false)
  /\ (forall e, _calculate_confidence candidate = Raise e -> e = AttributeError)
  /\ (forall x, _calculate_confidence candidate = Ok x ->
                (0.0 <=? x) = true /\ (x <=? 1.0) = true).
Proof.
  split; [|split].
  - unfold _calculate_confidence.
    destruct candidate as [|kv rest]; [cbn; intuition discriminate|].
    set (d := kv :: rest).
    destruct (dict_get d "last_name") as [| b | f | s | l | l]; cbn [truthy is_string];
      try (destruct b); try (destruct (negb (PrimFloat.eqb f 0)));
      try (destruct (PyStr.nonempty s)); try (destruct l);
      cbn [py_lower exc_bind]; intuition (try discriminate; try reflexivity).
  - unfold _calculate_confidence.
    destruct candidate as [|kv rest]; [discriminate|].
    set (d := kv :: rest).
    destruct (truthy (dict_get d "last_name")); cbn [exc_bind]; [|discriminate].
    destruct (dict_get d "last_name"); cbn [py_lower exc_bind];
      intros e H; try discriminate H; now injection H as <-.
  - intros x Hx. apply score_values_bounded.
    now apply (confidence_in_score_values candidate).
Qed.

(** When the three fields are present and the last name is a string, the
    score is 1.0 whether the last name is clean or not. *)
Theorem confidence_of_complete_candidate (candidate : dict) :
  truthy (dict_get candidate "first_name") = true ->
  truthy (dict_get candidate "last_name") = true ->
  is_string (dict_get candidate "last_name") = true ->
  truthy (dict_get candidate "date_of_birth") = true ->
  _calculate_confidence candidate = Ok 1.0.
Proof.
  unfold _calculate_confidence.
  destruct candidate as [|kv rest]; [discriminate|].
  set (d := kv :: rest). intros -> Hl Hs ->. rewrite Hl.
  destruct (dict_get d "last_name") as [| | |s| |]; try discriminate.
  cbn [py_lower exc_bind].
  destruct (negb (artifact_search (PyStr.lower s))); reflexivity.
Qed.

Lemma confidence_of_complete_candidate_witness :
  truthy (dict_get (dict_of_info smith_id7_born) "first_name") = true
  /\ truthy (dict_get (dict_of_info smith_id7_born) "last_name") = true
  /\ is_string (dict_get (dict_of_info smith_id7_born) "last_name") = true
  /\ truthy (dict_get (dict_of_info smith_id7_born) "date_of_birth") = true
  /\ clean_last_name (last_name smith_id7_born) = false
  /\ _calculate_confidence (dict_of_info smith_id7_born) = Ok 1.0.
Proof.
  do 5 (split; [reflexivity|]).
  exact (confidence_of_complete_candidate (dict_of_info smith_id7_born)
           eq_refl eq_refl eq_refl eq_refl).
Defined.

(** ** The reanalysis gates in terms of the fields *)

Lemma quality_without_summary (ocr_result : dict) (method : string) (x : float) :
  data_quality_score (extracted_candidate ocr_result method x) = Ok (JNum x).
Proof. reflexivity. Qed.

Lemma gates_of_rubric (p : PatientInfo) :
  (rubric p <? 0.7) = negb (complete_enough p)
  /\ (rubric p <? 0.6) = at_most_one_field p.
Proof.
  unfold rubric, complete_enough, at_most_one_field.
  destruct (present (first_name p)), (present (last_name p)),
    (clean_last_name (last_name p)), (present (date_of_birth p));
    split; reflexivity.
Qed.

(** When no validation summary is available, the rubric confidence of the
    extracted fields decides the escalation: no reanalysis is attempted
    exactly when both names are present, or a clean last name and a date of
    birth are; the vision reanalysis is attempted only when at most one of
    the three fields is present. *)
Theorem escalation_by_fields (w : World) (enable_ai : bool)
    (file_content : bytes) (text method : string) (p : PatientInfo) :
  (fst (escalation_stage w enable_ai file_content text
          (extracted_candidate (dict_of_info p) method (rubric p))) = []
   <-> complete_enough p = true)
  /\ (forall q,
        In (VisionReanalysis q)
           (fst (escalation_stage w enable_ai file_content text
                   (extracted_candidate (dict_of_info p) method (rubric p)))) ->
        at_most_one_field p = true).
Proof.
  destruct (gates_of_rubric p) as [H7 H6].
  unfold escalation_stage, with_steps. rewrite quality_without_summary.
  cbn [py_lt]. rewrite H7, H6.
  destruct (complete_enough p); cbn [negb fst].
  { split; [tauto|]. intros q []. }
  split; [split; [|discriminate]|].
  - destruct (improves _ _) as [[b|]|]; cbn [fst app]; discriminate.
  - intros q.
    destruct (improves (_ai_text_analysis w enable_ai text) _) as [[b|]|];
      cbn [fst app In]; try (intros [H|[H|[]]]; discriminate H);
      try (intros [H|[]]; discriminate H).
    destruct (at_most_one_field p); [trivial|].
    cbn [fst app In]. intros [H|[]]; discriminate H.
Qed.

(** A candidate with a clean last name and a date of birth but no first name
    scores 0.7 and is not escalated. *)
Lemma no_first_name_is_not_escalated (w : World) (file_content : bytes)
    (text : string) :
  rubric no_first_name = 0.4 + 0.1 + 0.2
  /\ fst (escalation_stage w true file_content text
            (extracted_candidate (dict_of_info no_first_name) "pdfplumber"
               (rubric no_first_name))) = [].
Proof.
  split; reflexivity.
Qed.

Local Close Scope float_scope.

(** ** Corrections and their log *)

Lemma dict_get_set_same (d : dict) (k : string) (v : json) :
  dict_get (dict_set d k v) k = v.
Proof.
  unfold dict_get, dict_get_default.
  induction d as [|[k' v'] r IH]; cbn [dict_set dict_lookup].
  - now rewrite String.eqb_refl.
  - destruct (String.eqb k k') eqn:E; cbn [dict_lookup]; rewrite E; [reflexivity|exact IH].
Qed.

Lemma dict_get_set_other (d : dict) (k k' : string) (v : json) :
  k <> k' -> dict_get (dict_set d k v) k' = dict_get d k'.
Proof.
  unfold dict_get, dict_get_default. intros Hne.
  assert (Hkk : String.eqb k' k = false) by (apply String.eqb_neq; congruence).
  induction d as [|[k0 v0] r IH]; cbn [dict_set dict_lookup].
  - now rewrite Hkk.
  - destruct (String.eqb k k0) eqn:E; cbn [dict_lookup].
    + apply String.eqb_eq in E. subst k0. now rewrite Hkk.
    + destruct (String.eqb k' k0); [reflexivity|exact IH].
Qed.

Lemma keys_set_present (d : dict) (k : string) (v : json) :
  In k (keys d) -> keys (dict_set d k v) = keys d.
Proof.
  unfold keys.
  induction d as [|[k' v'] r IH]; cbn [dict_set map fst In]; [tauto|].
  intros Hin. destruct (String.eqb k k') eqn:E; cbn [map fst]; [reflexivity|].
  f_equal. apply IH. destruct Hin as [->|Hin]; [|exact Hin].
  now rewrite String.eqb_refl in E.
Qed.

Lemma apply_corrections_log (validation_result : json) (patient_info : dict) :
  forall fields corrected_info applied corrected_info' applied',
    NoDup fields ->
    apply_corrections validation_result patient_info fields corrected_info applied
    = Ok (corrected_info', applied') ->
    exists new,
      applied' = applied ++ new
      /\ (forall c, In c new ->
            In (field c) fields
            /\ original c = dict_get patient_info (field c)
            /\ truthy (corrected c) = true
            /\ py_eq (corrected c) (original c) = false
            /\ dict_get corrected_info' (field c) = corrected c)
      /\ (forall k, ~ In k (map field new) ->
            dict_get corrected_info' k = dict_get corrected_info k)
      /\ NoDup (map field new).
Proof.
  induction fields as [|f rest IH]; intros ci ap ci' ap' Hnd.
  - cbn [apply_corrections]. intros [= <- <-]. exists [].
    rewrite app_nil_r. split; [reflexivity|].
    split; [intros c []|]. split; [reflexivity|constructor].
  - apply NoDup_cons_iff in Hnd as [Hf Hrest].
    cbn [apply_corrections].
    destruct (json_get validation_result "validation_results" (JObj []))
      as [results|]; cbn [exc_bind]; [|discriminate].
    destruct (json_get results f (JObj [])) as [fv|]; cbn [exc_bind];
      [|discriminate].
    destruct (json_get fv "corrected_value" JNull) as [cv|]; cbn [exc_bind];
      [|discriminate].
    destruct (truthy cv && negb (py_eq cv (dict_get patient_info f))) eqn:Hc.
    + destruct (json_get fv "issues" (JArr [])) as [issues|]; cbn [exc_bind];
        [|discriminate].
      intros H. destruct (IH _ _ _ _ Hrest H) as (new & Hap & Hlog & Hother & Hnd').
      apply andb_true_iff in Hc as [Ht Hneq]. apply negb_true_iff in Hneq.
      assert (Hfresh : ~ In f (map field new)).
      { intros Hin. apply in_map_iff in Hin as (c & Hc & Hin).
        destruct (Hlog c Hin) as (Hin' & _). rewrite Hc in Hin'. contradiction. }
      eexists (_ :: new). split; [now rewrite Hap, <- app_assoc|].
      split; [|split].
      * intros c [<-|Hin]; cbn [field original corrected].
        -- split; [now left|]. split; [reflexivity|]. split; [exact Ht|].
           split; [exact Hneq|].
           rewrite (Hother f Hfresh). apply dict_get_set_same.
        -- destruct (Hlog c Hin) as (H1 & H2 & H3 & H4 & H5).
           split; [now right|]. auto.
      * intros k Hk. cbn [map field In] in Hk.
        rewrite Hother by tauto. apply dict_get_set_other. tauto.
      * cbn [map field]. now constructor.
    + intros H. destruct (IH _ _ _ _ Hrest H) as (new & Hap & Hlog & Hother & Hnd').
      exists new. split; [exact Hap|]. split; [|split; assumption].
      intros c Hin. destruct (Hlog c Hin) as (H1 & H2 & H3 & H4 & H5).
      split; [now right|]. auto.
Qed.

Lemma apply_corrections_keys (validation_result : json) (patient_info : dict) :
  forall fields corrected_info applied corrected_info' applied',
    incl fields (keys corrected_info) ->
    apply_corrections validation_result patient_info fields corrected_info applied
    = Ok (corrected_info', applied') ->
    keys corrected_info' = keys corrected_info.
Proof.
  induction fields as [|f rest IH]; intros ci ap ci' ap' Hincl.
  - cbn [apply_corrections]. now intros [= <- _].
  - cbn [apply_corrections].
    destruct (json_get validation_result "validation_results" (JObj []))
      as [results|]; cbn [exc_bind]; [|discriminate].
    destruct (json_get results f (JObj [])) as [fv|]; cbn [exc_bind];
      [|discriminate].
    destruct (json_get fv "corrected_value" JNull) as [cv|]; cbn [exc_bind];
      [|discriminate].
    assert (Hf : In f (keys ci)) by (apply Hincl; now left).
    assert (Hr : incl rest (keys ci)) by (intros x Hx; apply Hincl; now right).
    destruct (truthy cv && negb (py_eq cv (dict_get patient_info f))).
    + destruct (json_get fv "issues" (JArr [])) as [issues|]; cbn [exc_bind];
        [|discriminate].
      intros H. apply IH in H; [|now rewrite keys_set_present].
      now rewrite H, keys_set_present.
    + now apply IH.
Qed.

Lemma validate_inversion (w : World) (enable_ai : bool) (text : string)
    (patient_info : dict) (outcome : ValidationOutcome) :
  _ai_validate_extracted_data w enable_ai text patient_info = Some outcome ->
  exists validation_result,
    apply_corrections validation_result patient_info validated_fields
      patient_info []
    = Ok (corrected_patient_info outcome,
          corrections_applied (validation_summary outcome)).
Proof.
  unfold _ai_validate_extracted_data.
  destruct (negb enable_ai || _); [discriminate|].
  destruct (llm_ainvoke w _) as [content|]; [|discriminate].
  destruct (decode_judgment w (PyStr.strip content)) as [v|];
    cbn [exc_bind]; [|discriminate].
  unfold summarize.
  destruct (json_get v "validation_results" (JObj [])); cbn [exc_bind];
    [|discriminate].
  destruct (json_get v "overall_validation" (JObj [])); cbn [exc_bind];
    [|discriminate].
  destruct (apply_corrections v patient_info validated_fields patient_info [])
    as [[ci ap]|] eqn:Ha; cbn [exc_bind]; [|discriminate].
  intros [= <-]. now exists v.
Qed.

Lemma validated_fields_distinct : NoDup validated_fields.
Proof.
  unfold validated_fields.
  repeat (constructor; [cbn [In]; intuition discriminate|]). constructor.
Qed.

Lemma corrections_log (w : World) (enable_ai : bool) (text : string)
    (patient_info : dict) (outcome : ValidationOutcome) :
  _ai_validate_extracted_data w enable_ai text patient_info = Some outcome ->
  (forall c, In c (corrections_applied (validation_summary outcome)) ->
     In (field c) validated_fields
     /\ original c = dict_get patient_info (field c)
     /\ corrected c = dict_get (corrected_patient_info outcome) (field c)
     /\ truthy (corrected c) = true
     /\ py_eq (corrected c) (original c) = false)
  /\ (forall k,
        ~ In k (map field (corrections_applied (validation_summary outcome))) ->
        dict_get (corrected_patient_info outcome) k = dict_get patient_info k)
  /\ NoDup (map field (corrections_applied (validation_summary outcome))).
Proof.
  intros H. destruct (validate_inversion _ _ _ _ _ H) as [v Hv].
  destruct (apply_corrections_log v patient_info _ _ _ _ _
              validated_fields_distinct Hv) as (new & Hap & Hlog & Hother & Hnd).
  cbn [app] in Hap. rewrite Hap.
  split; [|split; assumption].
  intros c Hin. destruct (Hlog c Hin) as (H1 & H2 & H3 & H4 & H5). auto.
Qed.

Lemma validated_keys_kept (w : World) (enable_ai : bool) (text : string)
    (patient_info : dict) (outcome : ValidationOutcome) :
  _ai_validate_extracted_data w enable_ai text patient_info = Some outcome ->
  incl validated_fields (keys patient_info) ->
  keys (corrected_patient_info outcome) = keys patient_info.
Proof.
  intros H Hincl. destruct (validate_inversion _ _ _ _ _ H) as [v Hv].
  now apply (apply_corrections_keys v patient_info _ _ _ _ _ Hincl Hv).
Qed.

(** The log of corrections is exact: each entry names one of the three
    fields, at most once, with the value the candidate had and the value the
    corrected candidate has; the new value is truthy and differs from the old
    one; every key that is not in the log keeps its value. *)
Theorem corrections_log_is_exact (w : World) (enable_ai : bool) (text : string)
    (patient_info : dict) (outcome : ValidationOutcome) :
  _ai_validate_extracted_data w enable_ai text patient_info = Some outcome ->
  (forall c, In c (corrections_applied (validation_summary outcome)) ->
     In (field c) validated_fields
     /\ original c = dict_get patient_info (field c)
     /\ corrected c = dict_get (corrected_patient_info outcome) (field c)
     /\ truthy (corrected c) = true
     /\ py_eq (corrected c) (original c) = false)
  /\ (forall k,
        ~ In k (map field (corrections_applied (validation_summary outcome))) ->
        dict_get (corrected_patient_info outcome) k = dict_get patient_info k)
  /\ NoDup (map field (corrections_applied (validation_summary outcome))).
Proof. apply corrections_log. Qed.

(** Validation never blanks a field: a key whose value is truthy in the
    candidate has a truthy value in the corrected candidate. *)
Theorem validation_never_blanks (w : World) (enable_ai : bool) (text : string)
    (patient_info : dict) (outcome : ValidationOutcome) (k : string) :
  _ai_validate_extracted_data w enable_ai text patient_info = Some outcome ->
  truthy (dict_get patient_info k) = true ->
  truthy (dict_get (corrected_patient_info outcome) k) = true.
Proof.
  intros H Ht.
  destruct (corrections_log _ _ _ _ _ H) as (Hlog & Hother & _).
  destruct (in_dec string_dec k
              (map field (corrections_applied (validation_summary outcome))))
    as [Hin|Hout].
  - apply in_map_iff in Hin as (c & <- & Hin).
    destruct (Hlog c Hin) as (_ & _ & <- & Hc & _). exact Hc.
  - now rewrite (Hother k Hout).
Qed.

(** Validation keeps the keys of a candidate that has the three fields, in
    their order. *)
Theorem validation_keeps_keys (w : World) (enable_ai : bool) (text : string)
    (patient_info : dict) (outcome : ValidationOutcome) :
  _ai_validate_extracted_data w enable_ai text patient_info = Some outcome ->
  incl validated_fields (keys patient_info) ->
  keys (corrected_patient_info outcome) = keys patient_info.
Proof. apply validated_keys_kept. Qed.

Lemma corrections_log_is_exact_witness :
  _ai_validate_extracted_data correcting_model true smith_id7_page
    (dict_of_info smith_id7) = Some correction_outcome
  /\ (forall c, In c (corrections_applied (validation_summary correction_outcome)) ->
        In (field c) validated_fields
        /\ original c = dict_get (dict_of_info smith_id7) (field c)
        /\ corrected c = dict_get (corrected_patient_info correction_outcome) (field c)
        /\ truthy (corrected c) = true
        /\ py_eq (corrected c) (original c) = false).
Proof.
  split; [reflexivity|].
  exact (proj1 (corrections_log_is_exact correcting_model true smith_id7_page
                  (dict_of_info smith_id7) correction_outcome eq_refl)).
Defined.

Lemma validation_never_blanks_witness :
  _ai_validate_extracted_data correcting_model true smith_id7_page
    (dict_of_info smith_id7) = Some correction_outcome
  /\ truthy (dict_get (dict_of_info smith_id7) "last_name") = true
  /\ truthy (dict_get (corrected_patient_info correction_outcome) "last_name") = true.
Proof.
  do 2 (split; [reflexivity|]).
  exact (validation_never_blanks correcting_model true smith_id7_page
           (dict_of_info smith_id7) correction_outcome "last_name"
           eq_refl eq_refl).
Defined.

Lemma validation_keeps_keys_witness :
  _ai_validate_extracted_data correcting_model true smith_id7_page
    (dict_of_info smith_id7) = Some correction_outcome
  /\ incl validated_fields (keys (dict_of_info smith_id7))
  /\ keys (corrected_patient_info correction_outcome) = keys (dict_of_info smith_id7).
Proof.
  assert (H : incl validated_fields (keys (dict_of_info smith_id7)))
    by (intros x Hx; exact Hx).
  split; [reflexivity|]. split; [exact H|].
  exact (validation_keeps_keys correcting_model true smith_id7_page
           (dict_of_info smith_id7) correction_outcome eq_refl H).
Defined.

(** ** The object inside a reply *)

Lemma from_first_skips (c : ascii) (before s : string) :
  mentions c before = false ->
  from_first c (before ++ s) = from_first c s.
Proof.
  induction before as [|a r IH]; [reflexivity|].
  cbn [mentions append from_first]. intros H.
  apply orb_false_iff in H as [Ha Hr]. rewrite Ha. now apply IH.
Qed.

Lemma upto_last_absent (c : ascii) (s : string) :
  mentions c s = false -> upto_last c s = None.
Proof.
  induction s as [|a r IH]; [reflexivity|].
  cbn [mentions upto_last]. intros H.
  apply orb_false_iff in H as [Ha Hr]. now rewrite (IH Hr), Ha.
Qed.

Lemma upto_last_closes (c : ascii) (body after : string) :
  mentions c after = false ->
  upto_last c (body ++ String c after) = Some (body ++ String c EmptyString)%string.
Proof.
  intros H. induction body as [|a r IH]; cbn [append upto_last].
  - now rewrite (upto_last_absent c after H), Ascii.eqb_refl.
  - now rewrite IH.
Qed.

(** Prose around the object is dropped: when no opening brace comes before
    the object and no closing brace after it, the text handed to [json.loads]
    is the object alone. *)
Theorem prose_around_object_is_dropped (before body after : string) :
  mentions "{" before = false ->
  mentions "}" after = false ->
  json_str_of (before ++ "{" ++ body ++ "}" ++ after)
  = ("{" ++ body ++ "}")%string.
Proof.
  intros Hb Ha. unfold json_str_of, json_match.
  rewrite (from_first_skips _ _ _ Hb). cbn [append from_first].
  rewrite Ascii.eqb_refl.
  change (String "{" (body ++ String "}" after))
    with (String "{" body ++ String "}" after)%string.
  rewrite (upto_last_closes _ _ _ Ha). reflexivity.
Qed.

Lemma prose_around_object_is_dropped_witness :
  mentions "{" "Here is the result: " = false
  /\ mentions "}" " Let me know if you need more." = false
  /\ json_str_of wrapped_reply = wrapped_object.
Proof.
  do 2 (split; [reflexivity|]).
  exact (prose_around_object_is_dropped "Here is the result: "
           (quoted "last_name" ++ ": " ++ quoted "Smith" ++ ", "
              ++ quoted "confidence_score" ++ ": 0.8")
           " Let me know if you need more." eq_refl eq_refl).
Defined.

(** A reply without an opening brace is handed to [json.loads] as it is. *)
Lemma reply_without_object (response_content : string) :
  mentions "{" response_content = false ->
  json_str_of response_content = response_content.
Proof.
  intros H. unfold json_str_of, json_match.
  replace (from_first "{" response_content) with (@None string); [reflexivity|].
  induction response_content as [|a r IH]; [reflexivity|].
  cbn [mentions from_first] in *. apply orb_false_iff in H as [Ha Hr].
  rewrite Ha. now apply IH.
Qed.

(** ** The result of a reanalysis *)

Lemma fields_of_reply_shape (w : World) (r : reply) (d : dict) :
  fields_of_reply w r = Some d ->
  keys d = patient_keys
  /\ exists content result,
       r = Content content
       /\ json_loads w (json_str_of (PyStr.strip content)) = Decoded (JObj result)
       /\ forall k, In k patient_keys -> dict_get d k = dict_get result k.
Proof.
  unfold fields_of_reply. destruct r as [content|]; [|discriminate].
  destruct (json_loads w (json_str_of (PyStr.strip content)))
    as [[| | | | |result]| |] eqn:Hl; try discriminate.
  intros [= <-]. split; [reflexivity|].
  exists content, result. split; [reflexivity|]. split; [exact Hl|].
  intros k [<-|[<-|[<-|[]]]]; reflexivity.
Qed.

(** A reanalysis, by text or by vision, returns a result only when the
    capability is enabled and the reasoning service replied to its request
    (the first 4000 characters of the text, or the image of the first page)
    with a text from which an object is decoded; the result has exactly the
    three patient keys, in their order, with the values of that object: a key
    the object lacks is null, and any other key of the object, the model's own
    confidence included, is dropped. *)
Theorem reanalysis_result_shape (w : World) (enable_ai : bool) (text : string)
    (file_content : bytes) (d : dict) :
  (_ai_text_analysis w enable_ai text = Some d ->
   enable_ai = true
   /\ keys d = patient_keys
   /\ exists content result,
        llm_ainvoke w (TextAnalysisPrompt (PyStr.take 4000 text))
        = Content content
        /\ json_loads w (json_str_of (PyStr.strip content))
           = Decoded (JObj result)
        /\ forall k, In k patient_keys -> dict_get d k = dict_get result k)
  /\ (_ai_vision_analysis w enable_ai file_content = Some d ->
      enable_ai = true
      /\ keys d = patient_keys
      /\ exists image_base64 content result,
           pdf_to_base64_image w file_content = Ok image_base64
           /\ llm_ainvoke w (VisionAnalysisPrompt image_base64)
              = Content content
           /\ json_loads w (json_str_of (PyStr.strip content))
              = Decoded (JObj result)
           /\ forall k, In k patient_keys -> dict_get d k = dict_get result k).
Proof.
  unfold _ai_text_analysis, _ai_vision_analysis.
  destruct enable_ai; cbn [negb]; [|split; discriminate].
  split; intros H.
  - destruct (fields_of_reply_shape w _ d H) as (Hk & c & res & Hr & Hl & Hv).
    split; [reflexivity|]. split; [exact Hk|]. now exists c, res.
  - destruct (pdf_to_base64_image w file_content) as [image|]; [|discriminate].
    destruct (fields_of_reply_shape w _ d H) as (Hk & c & res & Hr & Hl & Hv).
    split; [reflexivity|]. split; [exact Hk|]. now exists image, c, res.
Qed.

Lemma reanalysis_result_shape_witness :
  _ai_text_analysis wrapped_model true "Pt: SMITH"
  = Some [("first_name", JNull); ("last_name", JStr "Smith");
          ("date_of_birth", JNull)]
  /\ exists content result,
       llm_ainvoke wrapped_model (TextAnalysisPrompt (PyStr.take 4000 "Pt: SMITH"))
       = Content content
       /\ json_loads wrapped_model (json_str_of (PyStr.strip content))
          = Decoded (JObj result)
       /\ forall k, In k patient_keys ->
            dict_get [("first_name", JNull); ("last_name", JStr "Smith");
                      ("date_of_birth", JNull)] k
            = dict_get result k.
Proof.
  split; [reflexivity|].
  exact (proj2 (proj2 (proj1 (reanalysis_result_shape wrapped_model true
                                "Pt: SMITH" [] _) eq_refl))).
Defined.

(** ** The run, stage by stage *)

Local Open Scope float_scope.

Lemma improves_origin (result : option dict) (c : Candidate) (better : dict) :
  improves result c = Ok (Some better) -> result = Some better.
Proof.
  unfold improves. destruct result as [r|]; [|discriminate].
  destruct (truthy (JObj r)); [|discriminate].
  destruct (_calculate_confidence r) as [conf|]; [|discriminate].
  cbn [exc_bind]. destruct (final_confidence c <? conf); [|discriminate].
  now intros [= <-].
Qed.

Lemma adoption_case (w : World) (enable_ai : bool) (text : string)
    (result : option dict) (better : dict) (method : string) (c : Candidate) :
  improves result c = Ok (Some better) ->
  exists conf c',
    result = Some better
    /\ _calculate_confidence better = Ok conf
    /\ (final_confidence c <? conf) = true
    /\ adopt w enable_ai text better method c = Ok c'
    /\ final_result c' = better /\ final_method c' = method
    /\ final_confidence c' = conf.
Proof.
  intros Hi. destruct (improves_better _ _ _ Hi) as (conf & Hconf & Hlt).
  exists conf. unfold adopt. rewrite Hconf. cbn [exc_bind].
  eexists. split; [now apply (improves_origin _ c)|].
  repeat (split; [reflexivity || assumption|]). reflexivity.
Qed.

Lemma escalation_stage_cases (w : World) (enable_ai : bool)
    (file_content : bytes) (text : string) (c : Candidate) :
  escalation_case w enable_ai file_content text c
    (escalation_stage w enable_ai file_content text c).
Proof.
  unfold escalation_stage, with_steps.
  destruct (data_quality_score c) as [q|];
    [|apply EscalationRaises; intros []].
  destruct (py_lt q 0.7) as [[|]|];
    [|apply EscalationKeeps; intros []|apply EscalationRaises; intros []].
  destruct (improves (_ai_text_analysis w enable_ai text) c)
    as [[better|]|] eqn:Ht; cbn [fst snd app].
  - destruct (adoption_case w enable_ai text _ _ "ai_text_enhanced"%string _ Ht)
      as (conf & c' & Hr & Hc & Hlt & -> & H1 & H2 & H3).
    now apply (EscalationAdoptsText _ _ _ _ _ q better conf c').
  - destruct (py_lt q 0.6) as [[|]|]; cbn [fst snd app].
    + destruct (improves (_ai_vision_analysis w enable_ai file_content) c)
        as [[better|]|] eqn:Hv; cbn [fst snd app].
      * destruct (adoption_case w enable_ai text _ _ "ai_vision_enhanced"%string
                    _ Hv)
          as (conf & c' & Hr & Hc & Hlt & -> & H1 & H2 & H3).
        now apply (EscalationAdoptsVision _ _ _ _ _ q better conf c').
      * apply EscalationKeeps; cbn [In]; intuition discriminate.
      * apply EscalationRaises; cbn [In]; intuition discriminate.
    + apply EscalationKeeps; cbn [In]; intuition discriminate.
    + apply EscalationRaises; cbn [In]; intuition discriminate.
  - apply EscalationRaises; cbn [In]; intuition discriminate.
Qed.

(** The candidate after the validation step. *)
Lemma validation_stage_cases (w : World) (enable_ai : bool) (text method : string)
    (p : PatientInfo) (c1 : Candidate) :
  validation_stage w enable_ai text (dict_of_info p) method
    (extracted_candidate (dict_of_info p) method (rubric p)) = Ok c1 ->
  In (final_confidence c1) score_values
  /\ (rubric p <=? final_confidence c1) = true
  /\ keys (final_result c1) = patient_keys
  /\ (final_method c1 = ("ocr_" ++ method)%string
      \/ final_method c1 = ("ocr_" ++ method ++ "_ai_validated")%string).
Proof.
  unfold validation_stage.
  pose proof (rubric_in_score_values p) as Hp.
  destruct (_ai_validate_extracted_data w enable_ai text (dict_of_info p))
    as [outcome|] eqn:Hv.
  - destruct (_calculate_confidence (corrected_patient_info outcome))
      as [cc|] eqn:Hcc; cbn [exc_bind]; [|discriminate].
    intros [= <-]. cbn [final_confidence final_result final_method
                        extracted_candidate].
    pose proof (confidence_in_score_values _ _ Hcc) as Hc.
    split; [now apply py_max_in_score_values|].
    split; [now apply py_max_not_below|].
    split; [|now right].
    apply (validated_keys_kept _ _ _ _ _ Hv). intros x Hx. exact Hx.
  - intros [= <-]. cbn [final_confidence final_result final_method
                        extracted_candidate].
    split; [assumption|]. split; [now apply score_values_le_refl|].
    split; [reflexivity|now left].
Qed.

(** The run after a successful extraction, in one equation. *)
Lemma pipeline_after_extraction (w : World) (enable_ai : bool)
    (file_content : bytes) (use_ai : option bool) (text method : string) :
  _extract_text_from_pdf w file_content = Ok (text, method) ->
  pipeline w enable_ai file_content use_ai
  = let p := extracted_info w text in
    let c := extracted_candidate (dict_of_info p) method (rubric p) in
    if match use_ai with Some b => b | None => enable_ai end && enable_ai
    then
      with_steps [Validation]
        match validation_stage w enable_ai text (dict_of_info p) method c with
        | Raise e => ([], Raise e)
        | Ok c' =>
            (fst (escalation_stage w enable_ai file_content text c'),
             do c'' <- snd (escalation_stage w enable_ai file_content text c');
             Ok (text, c''))
        end
    else ([], Ok (text, c)).
Proof.
  intros Hx. unfold pipeline, extracted_info. rewrite Hx.
  destruct (extract_patient_name_ocr w text) as [first last]. cbn [fst snd].
  now rewrite confidence_of_info.
Qed.

Local Close Scope float_scope.

(** ** What a run returns *)

Local Open Scope float_scope.

Lemma score_values_le_lt (a b c : float) :
  In a score_values -> In b score_values -> In c score_values ->
  (a <=? b) = true -> (b <? c) = true -> (a <? c) = true.
Proof.
  intros Ha Hb Hc; score_cases Ha; score_cases Hb; score_cases Hc;
    vm_compute; auto.
Qed.

Lemma run_cases (w : World) (enable_ai : bool) (file_content : bytes)
    (use_ai : option bool) :
  run_case w enable_ai file_content (pipeline w enable_ai file_content use_ai).
Proof.
  destruct (_extract_text_from_pdf w file_content) as [[text method]|e] eqn:Hx.
  2:{ unfold pipeline. rewrite Hx. apply RunFails; intros []. }
  rewrite (pipeline_after_extraction _ _ _ _ _ _ Hx). cbv zeta.
  set (p := extracted_info w text).
  pose proof (rubric_in_score_values p) as Hp.
  destruct (_ && _).
  2:{ apply (RunKeeps _ _ _ _ text method); cbn [final_confidence final_result
        final_method extracted_candidate]; auto; try (intros []).
      now apply score_values_le_refl. }
  unfold with_steps.
  destruct (validation_stage _ _ _ _ _ _) as [c1|e] eqn:Hv.
  2:{ cbn [fst snd app]. apply RunFails; cbn [In]; intuition discriminate. }
  destruct (validation_stage_cases _ _ _ _ _ _ Hv) as (H1 & H2 & H3 & H4).
  pose proof (escalation_stage_cases w enable_ai file_content text c1) as Hc.
  destruct (escalation_stage w enable_ai file_content text c1) as [steps out].
  cbn [fst snd app].
  inversion Hc as [st Hn1 Hn2|st e Hn1 Hn2
                  |q r conf c' Hr Hconf Hlt Hres Hm Hfc
                  |q r conf c' Hr Hconf Hlt Hres Hm Hfc]; subst; cbn [exc_bind].
  - apply (RunKeeps _ _ _ _ text method); auto;
      cbn [In]; intuition discriminate.
  - apply RunFails; cbn [In]; intuition discriminate.
  - pose proof (confidence_in_score_values _ _ Hconf) as Hin.
    apply (RunAdoptsText _ _ _ _ text method); auto.
    + now apply (score_values_le_lt _ (final_confidence c1)).
    + cbn [In]; tauto.
    + cbn [In]; intuition discriminate.
  - pose proof (confidence_in_score_values _ _ Hconf) as Hin.
    apply (RunAdoptsVision _ _ _ _ text method); auto.
    + now apply (score_values_le_lt _ (final_confidence c1)).
    + cbn [In]; intuition discriminate.
    + cbn [In]; tauto.
Qed.

Local Close Scope float_scope.

Local Open Scope float_scope.

Lemma reanalysis_keys (w : World) (enable_ai : bool) (text : string)
    (file_content : bytes) (d : dict) :
  _ai_text_analysis w enable_ai text = Some d
  \/ _ai_vision_analysis w enable_ai file_content = Some d ->
  keys d = patient_keys.
Proof.
  unfold _ai_text_analysis, _ai_vision_analysis.
  destruct enable_ai; cbn [negb]; [|intros [H|H]; discriminate H].
  intros [H|H]; [now apply (fields_of_reply_shape w _ d H)|].
  destruct (pdf_to_base64_image w file_content); [|discriminate].
  now apply (fields_of_reply_shape w _ d H).
Qed.

(** The confidence score of every result, successful or not, lies between
    0.0 and 1.0. *)
Theorem result_confidence_bounds (w : World) (enable_ai : bool) (clock : Clock)
    (file_content : bytes) (use_ai : option bool) :
  (0.0 <=? confidence_score
             (process_document w enable_ai clock file_content use_ai)) = true
  /\ (confidence_score (process_document w enable_ai clock file_content use_ai)
      <=? 1.0) = true.
Proof.
  unfold process_document.
  pose proof (run_cases w enable_ai file_content use_ai) as Hc.
  destruct (pipeline w enable_ai file_content use_ai) as [steps out].
  cbn [snd].
  inversion Hc as [st e Hn1 Hn2
                  |st text method c Hx Hin Hle Hk Hm Hn1 Hn2
                  |st text method c Hx Hr Hconf Hlt Hm Hn1 Hn2
                  |st text method c Hx Hr Hconf Hlt Hm Hn1 Hn2]; subst;
    cbn [respond failure confidence_score].
  - split; reflexivity.
  - now apply score_values_bounded.
  - apply score_values_bounded. now apply (confidence_in_score_values _ _ Hconf).
  - apply score_values_bounded. now apply (confidence_in_score_values _ _ Hconf).
Qed.

(** A successful result carries a candidate with exactly the three patient
    keys, in their order, and a provenance string of the method that extracted
    the text: "ocr_" and the method, the same followed by "_ai_validated",
    "ai_text_enhanced" or "ai_vision_enhanced". *)
Theorem successful_result_shape (w : World) (enable_ai : bool) (clock : Clock)
    (file_content : bytes) (use_ai : option bool) :
  success (process_document w enable_ai clock file_content use_ai) = true ->
  exists candidate text method,
    patient_info (process_document w enable_ai clock file_content use_ai)
    = Some candidate
    /\ keys candidate = patient_keys
    /\ _extract_text_from_pdf w file_content = Ok (text, method)
    /\ In (extraction_method
             (process_document w enable_ai clock file_content use_ai))
          (provenance method).
Proof.
  unfold process_document.
  pose proof (run_cases w enable_ai file_content use_ai) as Hc.
  destruct (pipeline w enable_ai file_content use_ai) as [steps out].
  cbn [snd].
  inversion Hc as [st e Hn1 Hn2
                  |st text method c Hx Hin Hle Hk Hm Hn1 Hn2
                  |st text method c Hx Hr Hconf Hlt Hm Hn1 Hn2
                  |st text method c Hx Hr Hconf Hlt Hm Hn1 Hn2]; subst;
    cbn [respond failure success patient_info extraction_method];
    [discriminate| | |]; intros _;
    exists (final_result c), text, method;
    (split; [reflexivity|]); unfold provenance; cbn [In].
  - split; [exact Hk|]. split; [exact Hx|]. destruct Hm as [->| ->]; auto.
  - split; [now apply (reanalysis_keys w enable_ai text file_content);
            left|].
    split; [exact Hx|]. rewrite Hm. auto.
  - split; [now apply (reanalysis_keys w enable_ai text file_content);
            right|].
    split; [exact Hx|]. rewrite Hm. auto.
Qed.

Lemma successful_result_shape_witness :
  success (process_document correcting_model true noon [] None) = true
  /\ exists candidate text method,
       patient_info (process_document correcting_model true noon [] None)
       = Some candidate
       /\ keys candidate = patient_keys
       /\ _extract_text_from_pdf correcting_model [] = Ok (text, method)
       /\ In (extraction_method (process_document correcting_model true noon [] None))
             (provenance method).
Proof.
  split; [reflexivity|].
  exact (successful_result_shape correcting_model true noon [] None eq_refl).
Defined.

Lemma ocr_methods_are_not_enhanced (method : string) :
  ("ocr_" ++ method)%string <> "ai_text_enhanced"%string
  /\ ("ocr_" ++ method ++ "_ai_validated")%string <> "ai_text_enhanced"%string
  /\ ("ocr_" ++ method)%string <> "ai_vision_enhanced"%string
  /\ ("ocr_" ++ method ++ "_ai_validated")%string <> "ai_vision_enhanced"%string.
Proof. repeat split; discriminate. Qed.

(** A result marked "ai_text_enhanced" carries exactly the fields the text
    reanalysis returned, whatever the validation of those fields suggested,
    scored by the rubric, and its confidence is strictly above the rubric
    confidence of the fields the patterns had extracted. *)
Theorem text_enhanced_result (w : World) (enable_ai : bool) (clock : Clock)
    (file_content : bytes) (use_ai : option bool) :
  extraction_method (process_document w enable_ai clock file_content use_ai)
  = "ai_text_enhanced"%string ->
  exists text method fields,
    _extract_text_from_pdf w file_content = Ok (text, method)
    /\ _ai_text_analysis w enable_ai text = Some fields
    /\ patient_info (process_document w enable_ai clock file_content use_ai)
       = Some fields
    /\ _calculate_confidence fields
       = Ok (confidence_score
               (process_document w enable_ai clock file_content use_ai))
    /\ (rubric (extracted_info w text)
        <? confidence_score
             (process_document w enable_ai clock file_content use_ai)) = true.
Proof.
  unfold process_document.
  pose proof (run_cases w enable_ai file_content use_ai) as Hc.
  destruct (pipeline w enable_ai file_content use_ai) as [steps out].
  cbn [snd].
  inversion Hc as [st e Hn1 Hn2
                  |st text method c Hx Hin Hle Hk Hm Hn1 Hn2
                  |st text method c Hx Hr Hconf Hlt Hm Hn1 Hn2
                  |st text method c Hx Hr Hconf Hlt Hm Hn1 Hn2]; subst;
    cbn [respond failure patient_info extraction_method confidence_score].
  - discriminate.
  - intros He. rewrite He in Hm.
    destruct (ocr_methods_are_not_enhanced method) as (A & B & _).
    destruct Hm as [Hm|Hm]; symmetry in Hm; contradiction.
  - intros _. now exists text, method, (final_result c).
  - rewrite Hm. discriminate.
Qed.

Lemma text_enhanced_result_witness :
  extraction_method (process_document analysis_helps true noon [] None)
  = "ai_text_enhanced"%string
  /\ exists text method fields,
       _extract_text_from_pdf analysis_helps [] = Ok (text, method)
       /\ _ai_text_analysis analysis_helps true text = Some fields
       /\ patient_info (process_document analysis_helps true noon [] None)
          = Some fields
       /\ _calculate_confidence fields
          = Ok (confidence_score (process_document analysis_helps true noon [] None))
       /\ (rubric (extracted_info analysis_helps text)
           <? confidence_score (process_document analysis_helps true noon [] None))
          = true.
Proof.
  split; [reflexivity|].
  exact (text_enhanced_result analysis_helps true noon [] None eq_refl).
Defined.

(** A result marked "ai_vision_enhanced" carries exactly the fields the vision
    reanalysis returned, scored by the rubric, and its confidence is strictly
    above the rubric confidence of the fields the patterns had extracted. *)
Theorem vision_enhanced_result (w : World) (enable_ai : bool) (clock : Clock)
    (file_content : bytes) (use_ai : option bool) :
  extraction_method (process_document w enable_ai clock file_content use_ai)
  = "ai_vision_enhanced"%string ->
  exists text method fields,
    _extract_text_from_pdf w file_content = Ok (text, method)
    /\ _ai_vision_analysis w enable_ai file_content = Some fields
    /\ patient_info (process_document w enable_ai clock file_content use_ai)
       = Some fields
    /\ _calculate_confidence fields
       = Ok (confidence_score
               (process_document w enable_ai clock file_content use_ai))
    /\ (rubric (extracted_info w text)
        <? confidence_score
             (process_document w enable_ai clock file_content use_ai)) = true.
Proof.
  unfold process_document.
  pose proof (run_cases w enable_ai file_content use_ai) as Hc.
  destruct (pipeline w enable_ai file_content use_ai) as [steps out].
  cbn [snd].
  inversion Hc as [st e Hn1 Hn2
                  |st text method c Hx Hin Hle Hk Hm Hn1 Hn2
                  |st text method c Hx Hr Hconf Hlt Hm Hn1 Hn2
                  |st text method c Hx Hr Hconf Hlt Hm Hn1 Hn2]; subst;
    cbn [respond failure patient_info extraction_method confidence_score].
  - discriminate.
  - intros He. rewrite He in Hm.
    destruct (ocr_methods_are_not_enhanced method) as (_ & _ & A & B).
    destruct Hm as [Hm|Hm]; symmetry in Hm; contradiction.
  - rewrite Hm. discriminate.
  - intros _. now exists text, method, (final_result c).
Qed.

Lemma vision_enhanced_result_witness :
  extraction_method (process_document vision_helps true noon [] None)
  = "ai_vision_enhanced"%string
  /\ exists text method fields,
       _extract_text_from_pdf vision_helps [] = Ok (text, method)
       /\ _ai_vision_analysis vision_helps true [] = Some fields
       /\ patient_info (process_document vision_helps true noon [] None)
          = Some fields
       /\ _calculate_confidence fields
          = Ok (confidence_score (process_document vision_helps true noon [] None))
       /\ (rubric (extracted_info vision_helps text)
           <? confidence_score (process_document vision_helps true noon [] None))
          = true.
Proof.
  split; [reflexivity|].
  exact (vision_enhanced_result vision_helps true noon [] None eq_refl).
Defined.

(** The provenance string tells which reanalysis was adopted: the fields of
    the text reanalysis were re-validated exactly when the result is marked
    "ai_text_enhanced", those of the vision reanalysis exactly when it is
    marked "ai_vision_enhanced", and never both in one run. *)
Theorem provenance_matches_steps (w : World) (enable_ai : bool) (clock : Clock)
    (file_content : bytes) (use_ai : option bool) :
  (In TextRevalidation (steps_attempted w enable_ai file_content use_ai)
   <-> extraction_method (process_document w enable_ai clock file_content use_ai)
       = "ai_text_enhanced"%string)
  /\ (In VisionRevalidation (steps_attempted w enable_ai file_content use_ai)
      <-> extraction_method
            (process_document w enable_ai clock file_content use_ai)
          = "ai_vision_enhanced"%string)
  /\ ~ (In TextRevalidation (steps_attempted w enable_ai file_content use_ai)
        /\ In VisionRevalidation
             (steps_attempted w enable_ai file_content use_ai)).
Proof.
  unfold process_document, steps_attempted.
  pose proof (run_cases w enable_ai file_content use_ai) as Hc.
  destruct (pipeline w enable_ai file_content use_ai) as [steps out].
  cbn [fst snd].
  inversion Hc as [st e Hn1 Hn2
                  |st text method c Hx Hin Hle Hk Hm Hn1 Hn2
                  |st text method c Hx Hr Hconf Hlt Hm Hn1 Hn2
                  |st text method c Hx Hr Hconf Hlt Hm Hn1 Hn2]; subst;
    cbn [respond failure extraction_method].
  - repeat split; try tauto; discriminate.
  - destruct (ocr_methods_are_not_enhanced method) as (A & B & C & D).
    repeat split; try tauto; intros He; rewrite He in Hm;
      destruct Hm as [Hm|Hm]; symmetry in Hm; contradiction.
  - rewrite Hm. repeat split; try tauto; discriminate.
  - rewrite Hm. repeat split; try tauto; discriminate.
Qed.

Local Close Scope float_scope.

(** ** Runs without the reasoning service *)

Lemma pipeline_without_ai (w : World) (enable_ai : bool) (file_content : bytes)
    (use_ai : option bool) :
  match use_ai with Some b => b | None => enable_ai end && enable_ai = false ->
  pipeline w enable_ai file_content use_ai
  = ([],
     match _extract_text_from_pdf w file_content with
     | Ok (text, method) =>
         Ok (text,
             extracted_candidate (dict_of_info (extracted_info w text)) method
               (rubric (extracted_info w text)))
     | Raise e => Raise e
     end).
Proof.
  intros Hoff.
  destruct (_extract_text_from_pdf w file_content) as [[text method]|e] eqn:Hx.
  - rewrite (pipeline_after_extraction _ _ _ _ _ _ Hx). cbv zeta.
    now rewrite Hoff.
  - unfold pipeline. now rewrite Hx.
Qed.

(** When the call does not ask for AI, or the processor has it disabled, the
    reasoning service has no part in the run: no AI step is attempted, the
    result is the same whatever the service would answer, it carries no
    validation summary, and a successful result is the pattern extraction,
    marked "ocr_" and the method, with its rubric confidence. *)
Theorem run_without_ai (w : World) (enable_ai : bool) (clock : Clock)
    (file_content : bytes) (use_ai : option bool)
    (llm : request -> reply) (loads : string -> decoding)
    (image : bytes -> exc string) :
  match use_ai with Some b => b | None => enable_ai end && enable_ai = false ->
  steps_attempted w enable_ai file_content use_ai = []
  /\ process_document (with_reasoning w llm loads image) enable_ai clock
       file_content use_ai
     = process_document w enable_ai clock file_content use_ai
  /\ ai_validation (process_document w enable_ai clock file_content use_ai) = None
  /\ (forall text method,
        _extract_text_from_pdf w file_content = Ok (text, method) ->
        process_document w enable_ai clock file_content use_ai
        = {| success := true;
             patient_info := Some (dict_of_info (extracted_info w text));
             extracted_text := Some (text_preview text);
             processing_time_ms := elapsed_ms clock;
             extraction_method := ("ocr_" ++ method)%string;
             confidence_score := rubric (extracted_info w text);
             timestamp := utcnow clock;
             ai_validation := None |}).
Proof.
  intros Hoff. unfold steps_attempted, process_document.
  rewrite !(pipeline_without_ai _ _ _ _ Hoff). cbn [fst snd].
  split; [reflexivity|]. split; [reflexivity|]. split.
  - now destruct (_extract_text_from_pdf w file_content) as [[text method]|e].
  - intros text method ->. reflexivity.
Qed.

Lemma run_without_ai_witness :
  match Some false with Some b => b | None => true end && true = false
  /\ steps_attempted chatty_model true [] (Some false) = []
  /\ process_document (with_reasoning chatty_model no_llm (decode_with [])
                         (fun _ => Ok "")) true noon [] (Some false)
     = process_document chatty_model true noon [] (Some false)
  /\ ai_validation (process_document chatty_model true noon [] (Some false)) = None.
Proof.
  split; [reflexivity|].
  destruct (run_without_ai chatty_model true noon [] (Some false) no_llm
              (decode_with []) (fun _ => Ok "") eq_refl) as (H1 & H2 & H3 & _).
  split; [exact H1|]. split; [exact H2|exact H3].
Defined.

Lemma init_enable_ai_true (enable_ai langchain_available : bool)
    (openai_api_key environment_key : option string) (chat_model_created : bool) :
  init_enable_ai enable_ai langchain_available openai_api_key environment_key
    chat_model_created = true
  <-> enable_ai = true /\ langchain_available = true
      /\ (some_text openai_api_key = true \/ some_text environment_key = true)
      /\ chat_model_created = true.
Proof.
  unfold init_enable_ai, or_else.
  destruct enable_ai, langchain_available, chat_model_created,
    (some_text openai_api_key) eqn:Hk, (some_text environment_key) eqn:He;
    cbn [andb]; rewrite ?Hk, ?He; cbn; intuition discriminate.
Qed.

(** A processor built without an API key (none given, none in the
    environment), without the language-model library, or whose chat model
    cannot be created, runs every document without AI, whatever [use_ai] the
    call passes: no AI step is attempted and the result is the one of a call
    with AI off. *)
Theorem processor_without_reasoning (asked langchain_available : bool)
    (openai_api_key environment_key : option string) (chat_model_created : bool)
    (w : World) (clock : Clock) (file_content : bytes) (use_ai : option bool) :
  asked = false
  \/ langchain_available = false
  \/ (some_text openai_api_key = false /\ some_text environment_key = false)
  \/ chat_model_created = false ->
  steps_attempted w
    (init_enable_ai asked langchain_available openai_api_key environment_key
       chat_model_created) file_content use_ai = []
  /\ process_document w
       (init_enable_ai asked langchain_available openai_api_key environment_key
          chat_model_created) clock file_content use_ai
     = process_document w false clock file_content (Some false).
Proof.
  intros Hno.
  assert (Hoff : init_enable_ai asked langchain_available openai_api_key
                   environment_key chat_model_created = false).
  { destruct (init_enable_ai _ _ _ _ _) eqn:Hi; [|reflexivity].
    apply init_enable_ai_true in Hi as (Ha & Hl & Hk & Hc).
    destruct Hno as [H|[H|[[H1 H2]|H]]]; [congruence|congruence| |congruence].
    destruct Hk as [Hk|Hk]; congruence. }
  rewrite Hoff. unfold steps_attempted, process_document.
  rewrite (pipeline_without_ai w false file_content use_ai)
    by now destruct use_ai as [[|]|].
  now rewrite (pipeline_without_ai w false file_content (Some false)).
Qed.

Lemma processor_without_reasoning_witness :
  (true = false
   \/ true = false
   \/ (some_text None = false /\ some_text (Some "") = false)
   \/ true = false)
  /\ init_enable_ai true true None (Some "") true = false
  /\ steps_attempted analysis_helps (init_enable_ai true true None (Some "") true)
       [] (Some true) = []
  /\ process_document analysis_helps
       (init_enable_ai true true None (Some "") true) noon [] (Some true)
     = process_document analysis_helps false noon [] (Some false).
Proof.
  assert (H : true = false
              \/ true = false
              \/ (some_text None = false /\ some_text (Some "") = false)
              \/ true = false) by (right; right; left; split; reflexivity).
  split; [exact H|]. split; [reflexivity|].
  exact (processor_without_reasoning true true None (Some "") true
           analysis_helps noon [] (Some true) H).
Defined.

(** ** The patient name *)

Lemma lower_char_idempotent (c : ascii) :
  PyStr.lower_char (PyStr.lower_char c) = PyStr.lower_char c.
Proof. destruct c as [[] [] [] [] [] [] [] []]; reflexivity. Qed.

Lemma upper_char_idempotent (c : ascii) :
  PyWords.upper_char (PyWords.upper_char c) = PyWords.upper_char c.
Proof. destruct c as [[] [] [] [] [] [] [] []]; reflexivity. Qed.

Lemma is_alpha_lower_char (c : ascii) :
  PyWords.is_alpha (PyStr.lower_char c) = PyWords.is_alpha c.
Proof. destruct c as [[] [] [] [] [] [] [] []]; reflexivity. Qed.

Lemma is_alpha_upper_char (c : ascii) :
  PyWords.is_alpha (PyWords.upper_char c) = PyWords.is_alpha c.
Proof. destruct c as [[] [] [] [] [] [] [] []]; reflexivity. Qed.

Lemma is_digit_lower_char (c : ascii) :
  PyStr.is_digit (PyStr.lower_char c) = PyStr.is_digit c.
Proof. destruct c as [[] [] [] [] [] [] [] []]; reflexivity. Qed.

Lemma is_digit_upper_char (c : ascii) :
  PyStr.is_digit (PyWords.upper_char c) = PyStr.is_digit c.
Proof. destruct c as [[] [] [] [] [] [] [] []]; reflexivity. Qed.

Lemma title_from_idempotent (s : string) :
  forall after_letter,
    PyWords.title_from after_letter (PyWords.title_from after_letter s)
    = PyWords.title_from after_letter s.
Proof.
  induction s as [|c r IH]; intros b; [reflexivity|].
  cbn [PyWords.title_from]. destruct b.
  - now rewrite lower_char_idempotent, is_alpha_lower_char, IH.
  - now rewrite upper_char_idempotent, is_alpha_upper_char, IH.
Qed.

Lemma title_idempotent (s : string) :
  PyWords.title (PyWords.title s) = PyWords.title s.
Proof. apply title_from_idempotent. Qed.

Lemma has_digit_title_from (s : string) :
  forall after_letter,
    PyStr.has_digit (PyWords.title_from after_letter s) = PyStr.has_digit s.
Proof.
  induction s as [|c r IH]; intros b; [reflexivity|].
  cbn [PyWords.title_from PyStr.has_digit]. rewrite IH.
  destruct b; now rewrite ?is_digit_lower_char, ?is_digit_upper_char.
Qed.

Lemma has_digit_append (a b : string) :
  PyStr.has_digit (a ++ b) = PyStr.has_digit a || PyStr.has_digit b.
Proof.
  induction a as [|c r IH]; [reflexivity|].
  cbn [append PyStr.has_digit]. now rewrite IH, orb_assoc.
Qed.

Lemma has_digit_lstrip (space : ascii -> bool) (s : string) :
  PyStr.has_digit s = false -> PyStr.has_digit (PyStr.lstrip_class space s) = false.
Proof.
  induction s as [|c r IH]; [reflexivity|].
  cbn [PyStr.lstrip_class]. destruct (space c); [|trivial].
  cbn [PyStr.has_digit]. intros H. apply orb_false_iff in H as [_ H]. now apply IH.
Qed.

Lemma has_digit_rstrip (space : ascii -> bool) (s : string) :
  PyStr.has_digit s = false -> PyStr.has_digit (PyStr.rstrip_class space s) = false.
Proof.
  induction s as [|c r IH]; [reflexivity|].
  cbn [PyStr.has_digit PyStr.rstrip_class]. intros H.
  apply orb_false_iff in H as [Hc Hr]. specialize (IH Hr).
  destruct (PyStr.rstrip_class space r) as [|c' r'].
  - destruct (space c); [reflexivity|]. cbn [PyStr.has_digit]. now rewrite Hc.
  - cbn [PyStr.has_digit] in *. now rewrite Hc.
Qed.

Lemma has_digit_strip (s : string) :
  PyStr.has_digit s = false -> PyStr.has_digit (PyStr.strip s) = false.
Proof.
  intros H. unfold PyStr.strip. now apply has_digit_rstrip, has_digit_lstrip.
Qed.

Lemma cleaned_parts_have_no_digit (parts : list string) :
  Forall (fun part => PyStr.has_digit part = false) (cleaned_parts parts).
Proof.
  induction parts as [|part rest IH]; cbn [cleaned_parts]; [constructor|].
  destruct (is_artifact part) eqn:Ha; constructor; [|exact IH].
  unfold is_artifact in Ha. now repeat (apply orb_false_iff in Ha as [Ha _]).
Qed.

Lemma has_digit_join (parts : list string) :
  Forall (fun part => PyStr.has_digit part = false) parts ->
  PyStr.has_digit (PyWords.join parts) = false.
Proof.
  unfold PyWords.join.
  induction 1 as [|part rest Hp Hrest IH]; [reflexivity|].
  cbn [String.concat]. destruct rest as [|next rest']; [exact Hp|].
  rewrite !has_digit_append, Hp, IH. reflexivity.
Qed.

Lemma no_names_shape : names_shape (None, None).
Proof. split; cbn [fst snd]; try discriminate; intros []; reflexivity. Qed.

Lemma both_names_shape (first last : string) :
  names_shape (Some (PyWords.title first), Some (PyWords.title last)).
Proof.
  split; cbn [fst snd]; try discriminate.
  - intros f [= <-]. apply title_idempotent.
  - intros l [= <-]. apply title_idempotent.
Qed.

Lemma scan_single_shape (matches : list string) (current : names) :
  names_shape current -> names_shape (scan_single matches current).
Proof.
  intros [H1 H2 H3].
  induction matches as [|m rest IH]; cbn [scan_single]; [now split|].
  destruct (PyWords.split (PyStr.strip m)) as [|first [|second parts]];
    try exact IH.
  destruct (cleaned_parts (second :: parts)) as [|part cleaned].
  - split; cbn [fst snd]; auto; try discriminate.
    intros f [= <-]. apply title_idempotent.
  - apply both_names_shape.
Qed.

Lemma scan_name_patterns_shape (rx : NameRegex) (text : string)
    (patterns : list name_pattern) :
  forall current,
    names_shape current ->
    names_shape (scan_name_patterns rx text patterns current).
Proof.
  induction patterns as [|pattern rest IH]; intros current Hc;
    cbn [scan_name_patterns]; [exact Hc|].
  destruct pattern as [regex|regex].
  - pose proof (scan_single_shape (findall_one rx regex text) current Hc) as Hs.
    destruct (_ && _); [exact Hs|now apply IH].
  - assert (Hs : names_shape (scan_pairs (findall_two rx regex text) current)).
    { unfold scan_pairs.
      destruct (findall_two rx regex text) as [|[g1 g2] ms]; [exact Hc|].
      apply both_names_shape. }
    destruct (_ && _); [exact Hs|now apply IH].
Qed.

Lemma scan_single_digit_free (matches : list string) (current : names) :
  last_digit_free current -> last_digit_free (scan_single matches current).
Proof.
  intros Hc.
  induction matches as [|m rest IH]; cbn [scan_single]; [exact Hc|].
  destruct (PyWords.split (PyStr.strip m)) as [|first [|second parts]];
    try exact IH.
  pose proof (cleaned_parts_have_no_digit (second :: parts)) as Hp.
  destruct (cleaned_parts (second :: parts)) as [|part cleaned].
  - exact Hc.
  - intros l [= <-]. unfold PyWords.title.
    rewrite has_digit_title_from. now apply has_digit_join.
Qed.

Lemma scan_name_patterns_digit_free (rx : NameRegex) (text : string)
    (patterns : list name_pattern) :
  pairs_digit_free rx ->
  forall current,
    last_digit_free current ->
    last_digit_free (scan_name_patterns rx text patterns current).
Proof.
  intros Hrx. induction patterns as [|pattern rest IH]; intros current Hc;
    cbn [scan_name_patterns]; [exact Hc|].
  destruct pattern as [regex|regex].
  - pose proof (scan_single_digit_free (findall_one rx regex text) current Hc)
      as Hs.
    destruct (_ && _); [exact Hs|now apply IH].
  - assert (Hs : last_digit_free (scan_pairs (findall_two rx regex text) current)).
    { unfold scan_pairs.
      destruct (findall_two rx regex text) as [|[g1 g2] ms] eqn:Hf; [exact Hc|].
      intros l [= <-]. unfold PyWords.title. rewrite has_digit_title_from.
      apply has_digit_strip.
      apply (Hrx regex text g1 g2). rewrite Hf. now left. }
    destruct (_ && _); [exact Hs|now apply IH].
Qed.

(** Every name the extractor returns is in title case, and it never returns a
    last name without a first name. *)
Theorem extracted_names_shape (rx : NameRegex) (text : string) :
  (forall f, fst (_extract_patient_name_ocr rx text) = Some f ->
             PyWords.title f = f)
  /\ (forall l, snd (_extract_patient_name_ocr rx text) = Some l ->
                PyWords.title l = l)
  /\ (snd (_extract_patient_name_ocr rx text) <> None ->
      fst (_extract_patient_name_ocr rx text) <> None).
Proof.
  assert (H : names_shape (_extract_patient_name_ocr rx text)).
  { unfold _extract_patient_name_ocr.
    pose proof (scan_name_patterns_shape rx (PyStr.collapse_ws text)
                  name_patterns _ no_names_shape) as Hs.
    destruct (_ || _); [|exact Hs].
    destruct (findall_two rx comma_pattern (PyStr.collapse_ws text))
      as [|[g1 g2] ms]; [exact Hs|]. apply both_names_shape. }
  destruct H as [H1 H2 H3]. auto.
Qed.

(** The last name the extractor returns has no digit: a part with a digit in
    a match of a pattern with one group ends the last name, and the groups of
    the patterns with two groups match letters only. *)
Theorem extracted_last_name_has_no_digit (rx : NameRegex) (text l : string) :
  pairs_digit_free rx ->
  snd (_extract_patient_name_ocr rx text) = Some l ->
  PyStr.has_digit l = false.
Proof.
  intros Hrx. revert l. change (last_digit_free (_extract_patient_name_ocr rx text)).
  unfold _extract_patient_name_ocr.
  assert (H0 : last_digit_free (None, None)) by (intros l; discriminate).
  pose proof (scan_name_patterns_digit_free rx (PyStr.collapse_ws text)
                name_patterns Hrx _ H0) as Hs.
  destruct (_ || _); [|exact Hs].
  destruct (findall_two rx comma_pattern (PyStr.collapse_ws text))
    as [|[g1 g2] ms] eqn:Hf; [exact Hs|].
  intros l [= <-]. unfold PyWords.title. rewrite has_digit_title_from.
  apply (Hrx comma_pattern (PyStr.collapse_ws text) g1 g2). rewrite Hf. now left.
Qed.

Lemma extracted_last_name_has_no_digit_witness :
  pairs_digit_free record_for_smith
  /\ snd (_extract_patient_name_ocr record_for_smith
            "Patient Name: John ID 4471 Record for Smith, John") = Some "Smith"
  /\ PyStr.has_digit "Smith" = false.
Proof.
  assert (H : pairs_digit_free record_for_smith).
  { intros regex text g1 g2. cbn [record_for_smith regex_table findall_two
                                  matches_in].
    destruct (String.eqb regex comma_pattern); [|intros []].
    intros [[= <- <-]|[]]. split; reflexivity. }
  split; [exact H|]. split; [reflexivity|].
  exact (extracted_last_name_has_no_digit record_for_smith
           "Patient Name: John ID 4471 Record for Smith, John" "Smith" H eq_refl).
Defined.

(** ** The validation endpoint *)

Lemma upload_gate_passes (name : string) (file_content : bytes) :
  upload_gate name file_content = None
  <-> endswith ".pdf" (PyStr.lower name) = true
      /\ (0 < N.of_nat (List.length file_content) <= max_upload_size)%N.
Proof.
  unfold upload_gate.
  destruct (endswith ".pdf" (PyStr.lower name)); cbn [negb];
    [|intuition discriminate].
  destruct (N.ltb_spec max_upload_size (N.of_nat (List.length file_content)));
    [split; [discriminate|intros [_ ?]; lia]|].
  destruct (N.eqb_spec (N.of_nat (List.length file_content)) 0);
    [split; [discriminate|intros [_ ?]; lia]|].
  split; [intros _; split; [reflexivity|lia]|reflexivity].
Qed.

(** The endpoint answers with a validation, rather than with an HTTP error,
    exactly when the upload has a name ending in ".pdf" in any letter case and
    between 1 byte and 10 MiB, its text can be extracted, the processor has AI
    enabled and the validation returns a result; the answer is then the name
    of the upload, the three submitted fields, that result and the time. *)
Theorem validation_endpoint_success (w : World) (i : Installation) (clock : Clock)
    (filename : option string) (file_content : bytes)
    (first last dob : option string) (body : ValidationResponse) :
  validate_extracted_data w i clock filename file_content first last dob
  = inl body
  <-> exists name text method outcome,
        filename = Some name
        /\ endswith ".pdf" (PyStr.lower name) = true
        /\ (0 < N.of_nat (List.length file_content) <= max_upload_size)%N
        /\ _extract_text_from_pdf w file_content = Ok (text, method)
        /\ endpoint_processor i = true
        /\ _ai_validate_extracted_data w true text
             (dict_of_info {| first_name := first; last_name := last;
                              date_of_birth := dob |}) = Some outcome
        /\ body = {| response_filename := name;
                     original_data :=
                       dict_of_info {| first_name := first; last_name := last;
                                       date_of_birth := dob |};
                     response_result := outcome;
                     response_timestamp := utcnow clock |}.
Proof.
  unfold validate_extracted_data. split.
  - intros H. destruct filename as [name|]; [|discriminate].
    destruct (upload_gate name file_content) eqn:Hg; [discriminate|].
    apply upload_gate_passes in Hg as [Hn Hs].
    destruct (_extract_text_from_pdf w file_content) as [[text method]|];
      [|discriminate].
    destruct (endpoint_processor i) eqn:He.
    + destruct (_ai_validate_extracted_data w true text _) as [outcome|] eqn:Hv;
        [|discriminate].
      injection H as <-.
      exists name, text, method, outcome.
      repeat (split; [assumption || reflexivity|]). reflexivity.
    + discriminate.
  - intros (name & text & method & outcome & -> & Hn & Hs & Ht & He & Hv & ->).
    assert (Hg : upload_gate name file_content = None)
      by (apply upload_gate_passes; now split).
    now rewrite Hg, Ht, He, Hv.
Qed.

(** Without an API key in the environment the endpoint never answers with a
    validation: it raises an HTTP error with status 400, 500 or 503, and 503
    whenever the upload is accepted and its text extracted. *)
Theorem validation_endpoint_without_key (w : World) (i : Installation)
    (clock : Clock) (filename : option string) (file_content : bytes)
    (first last dob : option string) :
  some_text (env_api_key i) = false ->
  exists status detail,
    validate_extracted_data w i clock filename file_content first last dob
    = inr (HTTPException status detail)
    /\ In status [400; 500; 503]
    /\ (forall name text method,
          filename = Some name ->
          upload_gate name file_content = None ->
          _extract_text_from_pdf w file_content = Ok (text, method) ->
          status = 503).
Proof.
  intros Hkey.
  assert (Hoff : endpoint_processor i = false).
  { unfold endpoint_processor.
    destruct (init_enable_ai _ _ _ _ _) eqn:Hi; [|reflexivity].
    apply init_enable_ai_true in Hi as (_ & _ & [Hk|Hk] & _);
      [discriminate Hk|congruence]. }
  unfold validate_extracted_data. rewrite Hoff.
  destruct filename as [name|].
  2:{ do 2 eexists. split; [reflexivity|]. split; [cbn; tauto|discriminate]. }
  destruct (upload_gate name file_content) as [[status detail]|] eqn:Hg.
  - exists status, detail. split; [reflexivity|]. split.
    + unfold upload_gate in Hg.
      destruct (negb _); [injection Hg as <- _; cbn; tauto|].
      destruct (_ <? _)%N; [injection Hg as <- _; cbn; tauto|].
      destruct (_ =? _)%N; [injection Hg as <- _; cbn; tauto|discriminate].
    + intros n t m [= <-] Hg'. rewrite Hg' in Hg. discriminate.
  - destruct (_extract_text_from_pdf w file_content) as [[text method]|e].
    + do 2 eexists. split; [reflexivity|]. split; [cbn; tauto|reflexivity].
    + do 2 eexists. split; [reflexivity|]. split; [cbn; tauto|discriminate].
Qed.

Lemma validation_endpoint_without_key_witness :
  some_text (env_api_key without_key) = false
  /\ validate_extracted_data correcting_model without_key noon
       (Some "referral.PDF") one_byte (Some "John") (Some "Smith Id7") None
     = inr (HTTPException 503 "AI validation service is not available")
  /\ exists status detail,
       validate_extracted_data correcting_model without_key noon
         (Some "referral.PDF") one_byte (Some "John") (Some "Smith Id7") None
       = inr (HTTPException status detail)
       /\ In status [400; 500; 503].
Proof.
  split; [reflexivity|]. split; [reflexivity|].
  destruct (validation_endpoint_without_key correcting_model without_key noon
              (Some "referral.PDF") one_byte (Some "John") (Some "Smith Id7")
              None eq_refl) as (status & detail & H1 & H2 & _).
  now exists status, detail.
Defined.

Lemma validation_endpoint_example :
  validate_extracted_data correcting_model with_key noon
    (Some "referral.PDF") one_byte (Some "John") (Some "Smith Id7") None
  = inl {| response_filename := "referral.PDF";
           original_data := dict_of_info smith_id7;
           response_result := correction_outcome;
           response_timestamp := utcnow noon |}.
Proof. reflexivity. Qed.

Lemma reported_confidence_not_below_extracted_witness :
  _extract_text_from_pdf analysis_helps []
  = Ok (("Pt: SMITH JOHN b. 15 Jan 1980" ++ nl)%string, "pdfplumber")
  /\ success (process_document analysis_helps true noon [] None) = true
  /\ PrimFloat.leb
       (rubric
          {| first_name :=
               fst (extract_patient_name_ocr analysis_helps
                      ("Pt: SMITH JOHN b. 15 Jan 1980" ++ nl));
             last_name :=
               snd (extract_patient_name_ocr analysis_helps
                      ("Pt: SMITH JOHN b. 15 Jan 1980" ++ nl));
             date_of_birth :=
               _extract_date_of_birth analysis_helps
                 ("Pt: SMITH JOHN b. 15 Jan 1980" ++ nl) |})
       (confidence_score (process_document analysis_helps true noon [] None))
     = true.
Proof.
  do 2 (split; [reflexivity|]).
  exact (reported_confidence_not_below_extracted analysis_helps true noon [] None
           _ _ eq_refl eq_refl).
Defined.
